(** * Paystack -> Shopify webhook receiver: the four handler variants

    A shallow embedding of the request handlers of [api/webhook.js]
    (verified notify, order-create, dual-email) and of the bare notify
    handler, and the properties of their request/response behaviour.

    JavaScript values that reach the handlers all come out of a JSON
    parser (the request body, the replies of the remote services), so the
    value model is JSON plus [undefined].  The remote services, Node's
    [crypto] and the [Intl]/[Date] formatters are the platform: their
    results are inputs of the model. *)

From Stdlib Require Import String Ascii List ZArith Bool Lia.
From Stdlib Require Import DecimalString.
Import ListNotations.

Local Open Scope string_scope.
Local Open Scope Z_scope.

(** ** Values *)

Module Js.

(** A value as [JSON.parse] builds it, or [undefined].  Numbers are the
    integer-valued ones (amounts are integers in minor units); an object is
    the list of its own properties in enumeration order, with distinct
    keys, as the parser leaves it. *)
#[warnings="-register-all"]
Inductive value : Type :=
| JUndefined
| JNull
| JBool (b : bool)
| JNum (n : Z)
| JStr (s : string)
| JArr (items : list value)
| JObj (props : list (string * value)).

(** What the runtime throws or a promise rejects with; only [message] is
    ever read from it (in the handlers' catch block). *)
Inductive js_error : Type :=
| TypeError (message : string)
| SyntaxError (message : string)
| Error (message : string).

Definition message (e : js_error) : string :=
  match e with
  | TypeError m | SyntaxError m | Error m => m
  end.

(** [ToBoolean]: the falsy values are [undefined], [null], [false], [0]
    and the empty string. *)
Definition truthy (v : value) : bool :=
  match v with
  | JUndefined | JNull => false
  | JBool b => b
  | JNum n => negb (n =? 0)
  | JStr s => negb (s =? "")%string
  | JArr _ | JObj _ => true
  end.

(** [a === b].  Primitives compare by value.  Objects and arrays compare
    by identity; the handlers only ever compare values of different
    origins (a parsed property against a literal, a property of the
    processor's reply against a property of the request body), so two
    objects are never the same one. *)
Definition strict_eq (a b : value) : bool :=
  match a, b with
  | JUndefined, JUndefined => true
  | JNull, JNull => true
  | JBool x, JBool y => Bool.eqb x y
  | JNum x, JNum y => x =? y
  | JStr x, JStr y => (x =? y)%string
  | _, _ => false
  end.

Definition nullish (v : value) : bool :=
  match v with
  | JUndefined | JNull => true
  | _ => false
  end.

Fixpoint own (k : string) (props : list (string * value)) : option value :=
  match props with
  | [] => None
  | (k', v) :: rest => if (k =? k')%string then Some v else own k rest
  end.

Definition has_own (k : string) (props : list (string * value)) : bool :=
  match own k props with Some _ => true | None => false end.

(** ** Conversion to text *)

Definition dquote : string := String "034"%char "".
Definition backslash : string := String "092"%char "".

Definition decimal (n : Z) : string := NilZero.string_of_int (Z.to_int n).

Fixpoint join (sep : string) (parts : list string) : string :=
  match parts with
  | [] => ""
  | [p] => p
  | p :: rest => p ++ sep ++ join sep rest
  end.

Fixpoint all_some {A} (xs : list (option A)) : option (list A) :=
  match xs with
  | [] => Some []
  | None :: _ => None
  | Some x :: rest =>
      match all_some rest with
      | Some ys => Some (x :: ys)
      | None => None
      end
  end.

(** [String(v)] / a template hole [${v}]; [None] is the TypeError
    "Cannot convert object to primitive value".  No property of a parsed
    object is callable, so a plain object converts (to [[object Object]])
    exactly when no own [toString] shadows the inherited one; an array
    converts through [join], where [null] and [undefined] items give the
    empty string. *)
Fixpoint ToString (v : value) : option string :=
  match v with
  | JUndefined => Some "undefined"
  | JNull => Some "null"
  | JBool true => Some "true"
  | JBool false => Some "false"
  | JNum n => Some (decimal n)
  | JStr s => Some s
  | JArr items =>
      option_map (join ",")
        (all_some (map (fun x => if nullish x then Some "" else ToString x) items))
  | JObj props =>
      if has_own "toString" props then None else Some "[object Object]"
  end.

(** *** [JSON.stringify] *)

Definition hex_digit (n : nat) : ascii :=
  nth n (list_ascii_of_string "0123456789abcdef") "0"%char.

Definition quote_char (c : ascii) : string :=
  let n := nat_of_ascii c in
  if Nat.eqb n 34 then backslash ++ dquote
  else if Nat.eqb n 92 then backslash ++ backslash
  else if Nat.eqb n 8 then backslash ++ "b"
  else if Nat.eqb n 12 then backslash ++ "f"
  else if Nat.eqb n 10 then backslash ++ "n"
  else if Nat.eqb n 13 then backslash ++ "r"
  else if Nat.eqb n 9 then backslash ++ "t"
  else if Nat.ltb n 32 then
    backslash ++ "u00" ++
      String (hex_digit (Nat.div n 16)) (String (hex_digit (Nat.modulo n 16)) "")
  else String c "".

Fixpoint quote_body (s : string) : string :=
  match s with
  | EmptyString => ""
  | String c rest => quote_char c ++ quote_body rest
  end.

Definition quote (s : string) : string := dquote ++ quote_body s ++ dquote.

(** [JSON.stringify(v)]: [None] is the result [undefined].  An
    [undefined] array item is written [null]; an [undefined] property is
    left out. *)
Fixpoint JSON_stringify (v : value) : option string :=
  match v with
  | JUndefined => None
  | JNull => Some "null"
  | JBool true => Some "true"
  | JBool false => Some "false"
  | JNum n => Some (decimal n)
  | JStr s => Some (quote s)
  | JArr items =>
      Some ("[" ++ join ","
              (map (fun x => match JSON_stringify x with
                             | Some t => t
                             | None => "null"
                             end) items) ++ "]")
  | JObj props =>
      Some ("{" ++ join ","
              (flat_map (fun kv => match JSON_stringify (snd kv) with
                                   | Some t => [quote (fst kv) ++ ":" ++ t]
                                   | None => []
                                   end) props) ++ "}")
  end.

End Js.


(** ** Effects: outbound calls, early return, exceptions *)

Module Effects.
Import Js.

(** What [res.status(code).json(body)] sends. *)
Record response : Type := Response { status : Z; json : value }.

(** A rendered template literal, as the texts of its holes in order; the
    markup between the holes is constant and is left out. *)
Definition rendered : Type := list string.

(** The outbound calls of the handlers, with the request-dependent part
    of their arguments. *)
Inductive call : Type :=
| PaystackVerify (reference : string)
    (* GET https://api.paystack.co/transaction/verify/${reference} *)
| ResendEmail (subject : rendered) (html : rendered)
    (* POST https://api.resend.com/emails *)
| DraftOrderCreate (query : rendered)
    (* POST .../graphql.json, mutation draftOrderCreate *)
| DraftOrderComplete (query : rendered)
    (* POST .../graphql.json, mutation draftOrderComplete *)
| SendMail (to : list value) (subject : rendered) (html : rendered).
    (* transporter.sendMail over Gmail SMTP *)

Definition trace : Type := list call.

(** A statement sequence either goes on with a value, leaves the handler
    through [return res.status(..).json(..)], or throws. *)
Inductive result (A : Type) : Type :=
| Val (a : A)
| Return (r : response)
| Throw (e : js_error).
Arguments Val {A} a.
Arguments Return {A} r.
Arguments Throw {A} e.

(** A computation: its result and the outbound calls it made, oldest
    first. *)
Definition M (A : Type) : Type := (result A * trace)%type.

Definition ret {A} (a : A) : M A := (Val a, []).
Definition throw {A} (e : js_error) : M A := (Throw e, []).
Definition respond {A} (code : Z) (body : value) : M A :=
  (Return (Response code body), []).
Definition emit (c : call) : M unit := (Val tt, [c]).

Definition bind {A B} (m : M A) (f : A -> M B) : M B :=
  match m with
  | (Val a, t) => let (r, t') := f a in (r, (t ++ t')%list)
  | (Return r, t) => (Return r, t)
  | (Throw e, t) => (Throw e, t)
  end.

Definition when (c : bool) (m : M unit) : M unit := if c then m else ret tt.

(** [try { m } catch (emailError) { console.error(..) }]: the exception is
    logged and dropped. *)
Definition try_log (m : M unit) : M unit :=
  match m with
  | (Throw _, t) => (Val tt, t)
  | other => other
  end.

(** The handlers' outer [try { .. } catch (error) { return
    res.status(500).json({ error: error.message }) }].  Every path of a
    try block ends in a [return], hence the empty value type. *)
Definition internal_error (e : js_error) : response :=
  Response 500 (JObj [("error", JStr (message e))]).

Definition try_catch (m : M Empty_set) : response * trace :=
  match m with
  | (Val a, _) => match a with end
  | (Return r, t) => (r, t)
  | (Throw e, t) => (internal_error e, t)
  end.

(** The try block [m] run after the calls [t] were already made. *)
Definition run (t : trace) (m : M Empty_set) : response * trace :=
  try_catch (fst m, (t ++ snd m)%list).

(** A computation that calls nothing and does not leave the handler: it
    gives a value or throws. *)
Definition pure {A} (m : M A) : Prop :=
  (exists a, m = ret a) \/ (exists e, m = throw e).

End Effects.

Declare Scope js_scope.
Delimit Scope js_scope with js.
Notation "x <- m ;; k" := (Effects.bind m (fun x => k))
  (at level 61, m at next level, right associativity) : js_scope.
Notation "m ;; k" := (Effects.bind m (fun _ => k))
  (at level 61, right associativity) : js_scope.

(** ** The platform and the outside world *)

Module Runtime.
Import Js Effects.
Local Open Scope js_scope.

(** Node built-ins the handlers call and whose output is only passed on:
    the keyed hash and the locale formatters. *)
Record platform : Type := Platform {
  (* crypto.createHmac('sha512', key).update(data).digest('hex') *)
  hmac_sha512_hex : string -> string -> string;
  (* (amount / 100).toLocaleString('en-NG', { style: 'currency', currency: 'NGN' }) *)
  kobo_toLocaleString : value -> string;
  (* parseFloat(text).toLocaleString('en-NG', ..) *)
  fee_toLocaleString : string -> string;
  (* ((amount / 100) - parseFloat(text)).toLocaleString('en-NG', ..) *)
  price_toLocaleString : value -> string -> string;
  (* new Date(paid_at).toLocaleString() *)
  date_toLocaleString : value -> string;
  (* new Date(paid_at).toLocaleDateString('en-NG', ..) *)
  date_toLocaleDateString : value -> string;
  (* new Date().getFullYear() *)
  getFullYear : string
}.

(** The body of a fetched response: [await response.json()] gives the
    parsed value or rejects. *)
Inductive payload : Type :=
| Json (v : value)
| NotJson (e : js_error).

(** How a [fetch] ends: the promise rejects, or a response arrives. *)
Inductive fetch_reply : Type :=
| Rejected (e : js_error)
| Responded (ok : bool) (content : payload).

Record fetch_response : Type := FetchResponse { ok : bool; content : payload }.

(** Everything outside the handler that one request can observe: the
    signing secret of the process environment and the way each remote
    call ends.  A handler makes each call at most once per request. *)
Record world : Type := World {
  PAYSTACK_SECRET_KEY : option string;
  paystack_verify : fetch_reply;
  resend_emails : fetch_reply;
  shopify_draftOrderCreate : fetch_reply;
  shopify_draftOrderComplete : fetch_reply;
  (* transporter.sendMail: [None] is delivered, [Some e] is rejected with e *)
  smtp_admin : option js_error;
  smtp_customer : option js_error
}.

(** The request as the serverless runtime hands it over.  [rawBody] is the
    text received on the wire; the handlers are given [body], the value
    the runtime parsed from it, and never see the text. *)
Record request : Type := Request {
  method : string;
  x_paystack_signature : option string;
  rawBody : string;
  body : value
}.

(** *** Language primitives *)

(** [v.k] for [v] that is not [null] or [undefined].  The names the
    handlers read exist on no primitive wrapper and on no array. *)
Definition prop (v : value) (k : string) : value :=
  match v with
  | JObj props => match own k props with Some x => x | None => JUndefined end
  | _ => JUndefined
  end.

(** [v.k] *)
Definition get (v : value) (k : string) : M value :=
  match v with
  | JUndefined =>
      throw (TypeError ("Cannot read properties of undefined (reading '" ++ k ++ "')"))
  | JNull =>
      throw (TypeError ("Cannot read properties of null (reading '" ++ k ++ "')"))
  | _ => ret (prop v k)
  end.

(** A template hole [${v}]. *)
Definition hole (v : value) : M string :=
  match ToString v with
  | Some s => ret s
  | None => throw (TypeError "Cannot convert object to primitive value")
  end.

(** [ToPrimitive(v)], as [v / 100] and [new Date(v)] apply it: on a parsed
    value it throws exactly when [String(v)] does. *)
Definition to_primitive (v : value) : M unit :=
  match ToString v with
  | Some _ => ret tt
  | None => throw (TypeError "Cannot convert object to primitive value")
  end.

(** A template literal: the holes are evaluated left to right. *)
Fixpoint template (holes : list (M string)) : M rendered :=
  match holes with
  | [] => ret []
  | h :: rest => s <- h ;; ss <- template rest ;; ret (s :: ss)
  end.

(** [await fetch(..)] *)
Definition fetch (c : call) (reply : fetch_reply) : M fetch_response :=
  match reply with
  | Rejected e => (Throw e, [c])
  | Responded o p => (Val (FetchResponse o p), [c])
  end.

(** [await response.json()] *)
Definition response_json (r : fetch_response) : M value :=
  match content r with
  | Json v => ret v
  | NotJson e => throw e
  end.

(** [await transporter.sendMail(..)] *)
Definition sendMail (c : call) (reply : option js_error) : M unit :=
  match reply with
  | None => (Val tt, [c])
  | Some e => (Throw e, [c])
  end.

(** [items.find(f => f.variable_name === name)] *)
Fixpoint find_variable (name : string) (items : list value) : M value :=
  match items with
  | [] => ret JUndefined
  | f :: rest =>
      vn <- get f "variable_name" ;;
      if strict_eq vn (JStr name) then ret f else find_variable name rest
  end.

(** [metadata.custom_fields?.find(f => f.variable_name === name)?.value] *)
Definition custom_field (metadata : value) (name : string) : M value :=
  fields <- get metadata "custom_fields" ;;
  match fields with
  | JUndefined | JNull => ret JUndefined
  | JArr items =>
      f <- find_variable name items ;;
      if nullish f then ret JUndefined else ret (prop f "value")
  | _ => throw (TypeError "metadata.custom_fields?.find is not a function")
  end.

(** [v || d] with a string literal [d] *)
Definition or_default (v : value) (d : string) : value :=
  if truthy v then v else JStr d.

(** [metadata.custom_fields?.find(..)?.value || d]: the field extraction
    of the notify handlers. *)
Definition extract (metadata : value) (name d : string) : M value :=
  v <- custom_field metadata name ;; ret (or_default v d).

End Runtime.

(** ** The handlers *)

Module Webhook.
Import Js Effects Runtime.
Local Open Scope js_scope.

Section Handlers.

Variable P : platform.

(** [crypto.createHmac('sha512', process.env.PAYSTACK_SECRET_KEY)
       .update(JSON.stringify(req.body)).digest('hex')]
    [createHmac] rejects a missing key and [update] rejects [undefined]. *)
Definition compute_hash (w : world) (req : request) : M string :=
  match PAYSTACK_SECRET_KEY w with
  | None => throw (TypeError "The key argument must be of type string")
  | Some key =>
      match JSON_stringify (body req) with
      | None => throw (TypeError "The data argument must be of type string")
      | Some text => ret (hmac_sha512_hex P key text)
      end
  end.

(** [hash !== req.headers['x-paystack-signature']] *)
Definition signature_differs (hash : string) (header : option string) : bool :=
  match header with
  | Some h => negb (hash =? h)%string
  | None => true
  end.

(** [const { .. } = data]: destructuring needs a value that is not
    [null] or [undefined]. *)
Definition destructurable (data : value) : M unit :=
  match data with
  | JUndefined =>
      throw (TypeError "Cannot destructure 'event.data' as it is undefined.")
  | JNull =>
      throw (TypeError "Cannot destructure 'event.data' as it is null.")
  | _ => ret tt
  end.

(** [${new Date(paid_at).toLocaleString()}] *)
Definition date_hole (paid_at : value) : M string :=
  to_primitive paid_at ;; ret (date_toLocaleString P paid_at).

(** [${new Date(paid_at).toLocaleDateString('en-NG', ..)}] *)
Definition long_date_hole (paid_at : value) : M string :=
  to_primitive paid_at ;; ret (date_toLocaleDateString P paid_at).

(** [${o.k}] *)
Definition prop_hole (o : value) (k : string) : M string :=
  v <- get o k ;; hole v.

Definition method_not_allowed : response * trace :=
  (Response 405 (JObj [("error", JStr "Method not allowed")]), []).

Definition received : value := JObj [("received", JBool true)].
Definition invalid_signature : value := JObj [("error", JStr "Invalid signature")].

(** *** Bare notify: no signature, no re-verification *)
Definition try_bare (w : world) (req : request) : M Empty_set :=
  let event := body req in
  type <- get event "event" ;;
  when (strict_eq type (JStr "charge.success")) (
    data <- get event "data" ;;
    destructurable data ;;
    let reference := prop data "reference" in
    let amount := prop data "amount" in
    let customer := prop data "customer" in
    let metadata := prop data "metadata" in
    let paid_at := prop data "paid_at" in
    productTitle <- extract metadata "product_title" "Unknown Product" ;;
    variantId <- extract metadata "variant_id" "N/A" ;;
    to_primitive amount ;;
    let amountInNGN := kobo_toLocaleString P amount in
    emailSubject <- template [hole reference] ;;
    emailBody <- template
      [ hole reference; ret amountInNGN; date_hole paid_at;
        prop_hole customer "email"; prop_hole customer "customer_code";
        hole productTitle; hole variantId ] ;;
    emailResponse <- fetch (ResendEmail emailSubject emailBody) (resend_emails w) ;;
    when (negb (ok emailResponse)) (throw (Error "Failed to send email")) ;;
    respond 200 (JObj [ ("success", JBool true); ("reference", reference);
                        ("message", JStr "Email notification sent") ])) ;;
  respond 200 received.

Definition handler_bare (w : world) (req : request) : response * trace :=
  if negb (method req =? "POST")%string then method_not_allowed
  else try_catch (try_bare w req).

(** [!verifyData.status || verifyData.data.status !== 'success'] *)
Definition not_verified (verifyData : value) : M bool :=
  st <- get verifyData "status" ;;
  if negb (truthy st) then ret true
  else
    d <- get verifyData "data" ;;
    s <- get d "status" ;;
    ret (negb (strict_eq s (JStr "success"))).

(** [verifyData.data.amount !== amount] *)
Definition amount_differs (verifyData amount : value) : M bool :=
  d <- get verifyData "data" ;;
  a <- get d "amount" ;;
  ret (negb (strict_eq a amount)).

(** *** Verified notify: signature, re-verification, one email over the
    HTTP email API *)
Definition try_verified (w : world) (req : request) : M Empty_set :=
  hash <- compute_hash w req ;;
  when (signature_differs hash (x_paystack_signature req))
    (respond 401 invalid_signature) ;;
  let event := body req in
  type <- get event "event" ;;
  when (strict_eq type (JStr "charge.success")) (
    data <- get event "data" ;;
    destructurable data ;;
    let reference := prop data "reference" in
    let amount := prop data "amount" in
    let customer := prop data "customer" in
    let metadata := prop data "metadata" in
    let paid_at := prop data "paid_at" in
    url <- hole reference ;;
    verifyResponse <- fetch (PaystackVerify url) (paystack_verify w) ;;
    verifyData <- response_json verifyResponse ;;
    failed <- not_verified verifyData ;;
    when failed (respond 400 (JObj [("error", JStr "Payment not verified")])) ;;
    mismatch <- amount_differs verifyData amount ;;
    when mismatch (respond 400 (JObj [("error", JStr "Amount mismatch")])) ;;
    productTitle <- extract metadata "product_title" "Unknown Product" ;;
    variantId <- extract metadata "variant_id" "N/A" ;;
    customerName <- extract metadata "customer_name" "N/A" ;;
    phone <- extract metadata "phone" "N/A" ;;
    shippingZone <- extract metadata "shipping_zone" "N/A" ;;
    address <- extract metadata "address" "N/A" ;;
    shippingFee <- extract metadata "shipping_fee" "0" ;;
    to_primitive amount ;;
    let amountInNGN := kobo_toLocaleString P amount in
    fee <- hole shippingFee ;;
    let shippingFeeNGN := fee_toLocaleString P fee in
    emailSubject <- template [hole reference] ;;
    emailBody <- template
      [ hole reference; ret amountInNGN; date_hole paid_at;
        hole customerName; prop_hole customer "email"; hole phone;
        hole shippingZone; ret shippingFeeNGN; hole address;
        hole productTitle; hole variantId; hole reference ] ;;
    emailResponse <- fetch (ResendEmail emailSubject emailBody) (resend_emails w) ;;
    when (negb (ok emailResponse)) (throw (Error "Failed to send email")) ;;
    respond 200 (JObj [ ("success", JBool true); ("reference", reference);
                        ("verified", JBool true);
                        ("message", JStr "Payment verified and email notification sent") ])) ;;
  respond 200 received.

Definition handler_verified (w : world) (req : request) : response * trace :=
  if negb (method req =? "POST")%string then method_not_allowed
  else try_catch (try_verified w req).

(** [metadata.custom_fields.find(f => f.variable_name === 'variant_id')],
    then [variantIdField ? variantIdField.value : null]: the variant id
    lookup of the order-create handler, without optional chaining and
    without a default. *)
Definition variant_id (metadata : value) : M value :=
  fields <- get metadata "custom_fields" ;;
  variantIdField <-
    match fields with
    | JArr items => find_variable "variant_id" items
    | JUndefined =>
        throw (TypeError "Cannot read properties of undefined (reading 'find')")
    | JNull =>
        throw (TypeError "Cannot read properties of null (reading 'find')")
    | _ => throw (TypeError "metadata.custom_fields.find is not a function")
    end ;;
  ret (if truthy variantIdField then prop variantIdField "value" else JNull).

(** *** Order-create: signature, re-verification of the status, two
    sequential mutations on the commerce backend *)
Definition try_order (w : world) (req : request) : M Empty_set :=
  hash <- compute_hash w req ;;
  when (signature_differs hash (x_paystack_signature req))
    (respond 400 invalid_signature) ;;
  let event := body req in
  type <- get event "event" ;;
  when (strict_eq type (JStr "charge.success")) (
    data <- get event "data" ;;
    destructurable data ;;
    let reference := prop data "reference" in
    let amount := prop data "amount" in
    let customer := prop data "customer" in
    let metadata := prop data "metadata" in
    url <- hole reference ;;
    verifyResponse <- fetch (PaystackVerify url) (paystack_verify w) ;;
    verification <- response_json verifyResponse ;;
    vdata <- get verification "data" ;;
    vstatus <- get vdata "status" ;;
    when (strict_eq vstatus (JStr "success")) (
      variantId <- variant_id metadata ;;
      when (negb (truthy variantId))
        (throw (Error "Variant ID not found in metadata")) ;;
      createQuery <- template
        [ prop_hole customer "email"; hole reference; hole variantId;
          hole reference ] ;;
      shopifyResponse <-
        fetch (DraftOrderCreate createQuery) (shopify_draftOrderCreate w) ;;
      shopifyData <- response_json shopifyResponse ;;
      errors <- get shopifyData "errors" ;;
      when (truthy errors)
        (throw (Error ("Shopify API error: " ++
                       match JSON_stringify errors with
                       | Some t => t
                       | None => "undefined"
                       end))) ;;
      d <- get shopifyData "data" ;;
      created <- get d "draftOrderCreate" ;;
      draftOrder <- get created "draftOrder" ;;
      draftOrderId <- get draftOrder "id" ;;
      completeQuery <- template [hole draftOrderId] ;;
      fetch (DraftOrderComplete completeQuery) (shopify_draftOrderComplete w) ;;
      respond 200 (JObj [ ("success", JBool true); ("reference", reference);
                          ("message", JStr "Order created successfully") ]))) ;;
  respond 200 received.

Definition handler_order (w : world) (req : request) : response * trace :=
  if negb (method req =? "POST")%string then method_not_allowed
  else try_catch (try_order w req).

(** [a?.value || b?.value || 'N/A']: the shipping zone of the dual-email
    handler falls back on the [state] field before the default. *)
Definition shipping_zone (metadata : value) : M value :=
  zone <- custom_field metadata "shipping_zone" ;;
  if truthy zone then ret zone
  else state <- custom_field metadata "state" ;; ret (or_default state "N/A").

(** *** Dual email: signature, re-verification, an admin notification and
    a customer order summary over SMTP, each in its own try/catch.
    [nodemailer.createTransport] only builds the transporter object. *)
Definition try_dual (w : world) (req : request) : M Empty_set :=
  hash <- compute_hash w req ;;
  when (signature_differs hash (x_paystack_signature req))
    (respond 401 invalid_signature) ;;
  let event := body req in
  type <- get event "event" ;;
  when (strict_eq type (JStr "charge.success")) (
    data <- get event "data" ;;
    destructurable data ;;
    let reference := prop data "reference" in
    let amount := prop data "amount" in
    let customer := prop data "customer" in
    let metadata := prop data "metadata" in
    let paid_at := prop data "paid_at" in
    url <- hole reference ;;
    verifyResponse <- fetch (PaystackVerify url) (paystack_verify w) ;;
    verifyData <- response_json verifyResponse ;;
    failed <- not_verified verifyData ;;
    when failed (respond 400 (JObj [("error", JStr "Payment not verified")])) ;;
    mismatch <- amount_differs verifyData amount ;;
    when mismatch (respond 400 (JObj [("error", JStr "Amount mismatch")])) ;;
    productTitle <- extract metadata "product_title" "Unknown Product" ;;
    variantId <- extract metadata "variant_id" "N/A" ;;
    customerName <- extract metadata "customer_name" "N/A" ;;
    phone <- extract metadata "phone" "N/A" ;;
    shippingZone <- shipping_zone metadata ;;
    address <- extract metadata "address" "N/A" ;;
    shippingFee <- extract metadata "shipping_fee" "0" ;;
    to_primitive amount ;;
    let amountInNGN := kobo_toLocaleString P amount in
    fee <- hole shippingFee ;;
    let shippingFeeNGN := fee_toLocaleString P fee in
    to_primitive amount ;;
    fee' <- hole shippingFee ;;
    let productPriceNGN := price_toLocaleString P amount fee' in
    emailSubject <- template [hole reference] ;;
    emailBody <- template
      [ hole reference; ret amountInNGN; date_hole paid_at;
        hole customerName; prop_hole customer "email"; hole phone;
        hole shippingZone; ret shippingFeeNGN; hole address;
        hole productTitle; hole variantId; hole reference ] ;;
    try_log
      (sendMail (SendMail [JStr "support@jegolden.com"] emailSubject emailBody)
                (smtp_admin w)) ;;
    customerEmailSubject <- template [hole reference] ;;
    customerEmailBody <- template
      [ hole customerName; hole reference; long_date_hole paid_at;
        hole productTitle; ret productPriceNGN; ret productPriceNGN;
        hole shippingZone; ret shippingFeeNGN; ret amountInNGN;
        hole customerName; hole address; hole shippingZone; hole phone;
        ret (getFullYear P) ] ;;
    try_log
      (email <- get customer "email" ;;
       sendMail (SendMail [email] customerEmailSubject customerEmailBody)
                (smtp_customer w)) ;;
    respond 200 (JObj [ ("success", JBool true); ("reference", reference);
                        ("verified", JBool true);
                        ("message", JStr "Payment verified, admin notification and customer order summary sent") ])) ;;
  respond 200 received.

Definition handler_dual (w : world) (req : request) : response * trace :=
  if negb (method req =? "POST")%string then method_not_allowed
  else try_catch (try_dual w req).

(** The four deployments of the handler. *)
Inductive variant : Type := BareNotify | VerifiedNotify | OrderCreate | DualEmail.

Definition try_block (v : variant) : world -> request -> M Empty_set :=
  match v with
  | BareNotify => try_bare
  | VerifiedNotify => try_verified
  | OrderCreate => try_order
  | DualEmail => try_dual
  end.

Definition handler (v : variant) : world -> request -> response * trace :=
  match v with
  | BareNotify => handler_bare
  | VerifiedNotify => handler_verified
  | OrderCreate => handler_order
  | DualEmail => handler_dual
  end.

End Handlers.

End Webhook.

(** ** Properties read off the requests and replies *)

Module Props.
Import Js Effects Runtime Webhook.

Section WithPlatform.

Variable P : platform.

(** The request carries the signature the handler computes: the header
    equals the keyed hash of the text the handler feeds to the hash. *)
Definition authentic (w : world) (req : request) : Prop :=
  exists key text,
    PAYSTACK_SECRET_KEY w = Some key /\
    JSON_stringify (body req) = Some text /\
    x_paystack_signature req = Some (hmac_sha512_hex P key text).

(** The handler computes a hash and the header is something else (or is
    missing). *)
Definition forged (w : world) (req : request) : Prop :=
  exists key text,
    PAYSTACK_SECRET_KEY w = Some key /\
    JSON_stringify (body req) = Some text /\
    x_paystack_signature req <> Some (hmac_sha512_hex P key text).

End WithPlatform.

(** The payment record of the webhook body and its parts. *)
Definition event_data (req : request) : value := prop (body req) "data".
Definition claimed_amount (req : request) : value := prop (event_data req) "amount".
Definition event_metadata (req : request) : value := prop (event_data req) "metadata".

(** The body is a [charge.success] event with a payment record. *)
Definition charge_success (req : request) : Prop :=
  prop (body req) "event" = JStr "charge.success" /\ nullish (event_data req) = false.

(** The processor answered the verification call with this JSON value. *)
Definition processor_reports (w : world) (verifyData : value) : Prop :=
  exists o, paystack_verify w = Responded o (Json verifyData).

Definition is_order_call (c : call) : bool :=
  match c with
  | DraftOrderCreate _ | DraftOrderComplete _ => true
  | _ => false
  end.

Definition is_email_call (c : call) : bool :=
  match c with
  | ResendEmail _ _ | SendMail _ _ _ => true
  | _ => false
  end.

Definition is_complete_call (c : call) : bool :=
  match c with
  | DraftOrderComplete _ => true
  | _ => false
  end.

(** The variant id lookup of the order-create handler gives nothing to
    order: it throws, or its result is falsy. *)
Definition no_variant_id (metadata : value) : Prop :=
  match fst (variant_id metadata) with
  | Val v => truthy v = false
  | _ => True
  end.

(** The draft-order-create call failed: no response, a body that is not
    JSON, GraphQL [errors] in the reply, or no draft order in it. *)
Definition draft_create_failed (reply : fetch_reply) : bool :=
  match reply with
  | Rejected _ => true
  | Responded _ (NotJson _) => true
  | Responded _ (Json shopifyData) =>
      nullish shopifyData
      || truthy (prop shopifyData "errors")
      || nullish (prop (prop (prop shopifyData "data") "draftOrderCreate") "draftOrder")
  end.

(** A custom field entry [{ variable_name, value }] and the metadata
    object around a field sequence. *)
Definition entry (name : string) (v : value) : value :=
  JObj [("variable_name", JStr name); ("value", v)].
Definition metadata_of (fields : list value) : value :=
  JObj [("custom_fields", JArr fields)].

(** [f.variable_name === name] *)
Definition named (name : string) (f : value) : bool :=
  strict_eq (prop f "variable_name") (JStr name).

End Props.

(** ** Sample requests and worlds *)

Module Samples.
Import Js Effects Runtime Webhook Props.

(** A stand-in platform: the keyed hash just pairs key and text, the
    formatters print fixed texts. *)
Definition sample_platform : platform :=
  Platform (fun key text => "hmac-sha512(" ++ key ++ "," ++ text ++ ")")
           (fun _ => "NGN 5,000.00") (fun _ => "NGN 0.00")
           (fun _ _ => "NGN 5,000.00") (fun _ => "1/1/2025, 12:00:00 AM")
           (fun _ => "1 January 2025") "2025".

Definition compact (b : value) : string :=
  match JSON_stringify b with Some t => t | None => "" end.

(** A POST request for the parsed body [b], signed with [key] over the
    handler's serialization of [b]. *)
Definition signed (P : platform) (key : string) (b : value) : request :=
  Request "POST" (option_map (hmac_sha512_hex P key) (JSON_stringify b))
          (compact b) b.

Definition charge (amount : Z) (fields : list value) : value :=
  JObj [ ("event", JStr "charge.success");
         ("data", JObj [ ("reference", JStr "ref_1");
                         ("amount", JNum amount);
                         ("customer", JObj [ ("email", JStr "buyer@example.com");
                                             ("customer_code", JStr "CUS_1") ]);
                         ("metadata", metadata_of fields);
                         ("paid_at", JStr "2025-01-01T00:00:00.000Z") ]) ].

Definition verification (status : string) (amount : Z) : fetch_reply :=
  Responded true
    (Json (JObj [ ("status", JBool true);
                  ("data", JObj [ ("status", JStr status);
                                  ("amount", JNum amount) ]) ])).

Definition draft_created : fetch_reply :=
  Responded true
    (Json (JObj [ ("data",
                   JObj [ ("draftOrderCreate",
                           JObj [ ("draftOrder",
                                   JObj [ ("id", JStr "gid://shopify/DraftOrder/1") ]) ]) ]) ])).

Definition draft_refused : fetch_reply :=
  Responded true
    (Json (JObj [ ("errors", JArr [JObj [("message", JStr "Throttled")]]) ])).

Definition accepted : fetch_reply := Responded true (Json (JObj [])).
Definition unprocessable : fetch_reply :=
  Responded false (Json (JObj [("message", JStr "Invalid API key")])).

(** All services answer well; the processor reports [status] and
    [amount]. *)
Definition world_reporting (status : string) (amount : Z) : world :=
  World (Some "sk_live") (verification status amount) accepted
        draft_created accepted None None.

(** Scenario C on the order-create handler: the body claims 500000, the
    processor reports a successful charge of 400000. *)
Definition mismatch_world : world := world_reporting "success" 400000.
Definition order_request (P : platform) : request :=
  signed P "sk_live" (charge 500000 [entry "variant_id" (JStr "987")]).

(** The processor reports an abandoned charge. *)
Definition abandoned_world : world := world_reporting "abandoned" 500000.

(** An event of another type. *)
Definition ping_request (P : platform) : request :=
  signed P "sk_live" (JObj [("event", JStr "transfer.success")]).

(** The same event with a header that is not the handler's hash. *)
Definition forged_request : request :=
  Request "POST" (Some "00ff") (compact (charge 500000 []))
          (charge 500000 []).

(** One parsed object received as two different texts: compact, and with
    blanks after the punctuation.  Both carry the hash of the compact
    text. *)
Definition ping : value := JObj [("event", JStr "ping")].
Definition compact_request : request :=
  Request "POST" (Some (hmac_sha512_hex sample_platform "sk_live" (compact ping)))
          (compact ping) ping.
Definition spaced_text : string :=
  "{ " ++ quote "event" ++ ": " ++ quote "ping" ++ " }".
Definition spaced_request : request :=
  Request "POST" (Some (hmac_sha512_hex sample_platform "sk_live" (compact ping)))
          spaced_text ping.

(** A product title field left empty by the customer. *)
Definition untitled : value := metadata_of [entry "product_title" (JStr "")].

(** A charge without a variant id. *)
Definition no_variant_request (P : platform) : request :=
  signed P "sk_live" (charge 500000 [entry "product_title" (JStr "Aviator")]).

(** The commerce backend refuses the draft order. *)
Definition refusing_world : world :=
  World (Some "sk_live") (verification "success" 500000) accepted
        draft_refused accepted None None.

(** The email API answers 422; the mail server refuses the admin
    message with an SMTP 535. *)
Definition email_down_world : world :=
  World (Some "sk_live") (verification "success" 500000) unprocessable
        draft_created accepted None None.
Definition smtp_down_world : world :=
  World (Some "sk_live") (verification "success" 500000) accepted
        draft_created accepted (Some (Error "Invalid login: 535")) None.
Definition notify_request (P : platform) : request :=
  signed P "sk_live" (charge 500000 [entry "customer_name" (JStr "Ada")]).

(** A POST without a body. *)
Definition empty_request : request := Request "POST" None "" JUndefined.

End Samples.

(** ** The payment record, typed *)

Module Fields.
Import Js Effects Runtime Webhook Props.

(** The custom fields as the data model has them: named texts, in
    order. *)
Definition fields_of (entries : list (string * string)) : list value :=
  map (fun e => entry (fst e) (JStr (snd e))) entries.

(** The text of the first field with this name. *)
Fixpoint first_text (name : string) (entries : list (string * string))
  : option string :=
  match entries with
  | [] => None
  | (n, s) :: rest => if (n =? name)%string then Some s else first_text name rest
  end.

(** That text, or [d] when there is no such field or its text is empty. *)
Definition field_text (name d : string) (entries : list (string * string))
  : string :=
  match first_text name entries with
  | Some s => if (s =? "")%string then d else s
  | None => d
  end.

(** The shipping zone shown by the dual-email handler. *)
Definition zone_text (entries : list (string * string)) : string :=
  match first_text "shipping_zone" entries with
  | Some s => if (s =? "")%string then field_text "state" "N/A" entries else s
  | None => field_text "state" "N/A" entries
  end.

(** The body of the request is a [charge.success] event whose payment
    record has a text reference, an integer amount, a customer with a
    text email, a text date and named text fields. *)
Record payment (req : request) (reference : string) (amount : Z)
  (email paid_at : string) (entries : list (string * string)) : Prop := Payment {
  payment_event : prop (body req) "event" = JStr "charge.success";
  payment_reference : prop (event_data req) "reference" = JStr reference;
  payment_amount : claimed_amount req = JNum amount;
  payment_email : prop (prop (event_data req) "customer") "email" = JStr email;
  payment_paid_at : prop (event_data req) "paid_at" = JStr paid_at;
  payment_fields :
    prop (event_metadata req) "custom_fields" = JArr (fields_of entries)
}.

(** The processor answers the verification call: the call went through,
    the charge succeeded, and this is its amount. *)
Definition confirms (w : world) (amount : value) : Prop :=
  exists verifyData,
    processor_reports w verifyData /\
    truthy (prop verifyData "status") = true /\
    prop (prop verifyData "data") "status" = JStr "success" /\
    strict_eq (prop (prop verifyData "data") "amount") amount = true.

(** The processor answers that the charge succeeded (the order-create
    handler asks no more). *)
Definition reports_success (w : world) : Prop :=
  exists verifyData,
    processor_reports w verifyData /\
    prop (prop verifyData "data") "status" = JStr "success".

(** The commerce backend created the draft order [id]. *)
Definition draft_order_created (w : world) (id : string) : Prop :=
  exists o shopifyData,
    shopify_draftOrderCreate w = Responded o (Json shopifyData) /\
    truthy (prop shopifyData "errors") = false /\
    prop (prop (prop (prop shopifyData "data") "draftOrderCreate") "draftOrder") "id"
      = JStr id.

(** The status of the invalid-signature answer of each handler that
    checks the signature. *)
Definition invalid_signature_status (v : variant) : Z :=
  match v with
  | OrderCreate => 400
  | _ => 401
  end.

(** The response reports success: 200 with a truthy [success] property
    (the acknowledgment [{received: true}] has none). *)
Definition is_success (r : response) : bool :=
  (status r =? 200) && truthy (prop (json r) "success").

(** The calls of one request come in a fixed order, each at most once:
    the bare handler only ever sends its email; the verified handler
    verifies, then sends; the order-create handler verifies, creates,
    then completes; the dual-email handler verifies, then makes both
    sends. *)
Definition call_order (v : variant) (t : trace) : bool :=
  match v, t with
  | _, [] => true
  | BareNotify, [ResendEmail _ _] => true
  | VerifiedNotify, [PaystackVerify _] => true
  | VerifiedNotify, [PaystackVerify _; ResendEmail _ _] => true
  | OrderCreate, [PaystackVerify _] => true
  | OrderCreate, [PaystackVerify _; DraftOrderCreate _] => true
  | OrderCreate, [PaystackVerify _; DraftOrderCreate _; DraftOrderComplete _] => true
  | DualEmail, [PaystackVerify _] => true
  | DualEmail, [PaystackVerify _; SendMail _ _ _; SendMail _ _ _] => true
  | _, _ => false
  end.

End Fields.

(** ** More sample requests and worlds *)

Module Cases.
Import Js Effects Runtime Webhook Props Samples Fields.

Definition shop_entries : list (string * string) :=
  [ ("product_title", "Aviator"); ("variant_id", "987");
    ("customer_name", "Ada"); ("phone", ""); ("state", "Lagos");
    ("address", "1 Marina Road"); ("shipping_fee", "2500");
    ("variant_id", "111") ].

Definition shop_request (P : platform) : request :=
  signed P "sk_live" (charge 500000 (fields_of shop_entries)).

(** The same event with a header that is not the handler's hash. *)
Definition forged_shop_request : request :=
  Request "POST" (Some "00ff") (compact (charge 500000 (fields_of shop_entries)))
          (charge 500000 (fields_of shop_entries)).

(** No signing secret in the process environment. *)
Definition keyless_world : world :=
  World None (verification "success" 500000) accepted draft_created accepted
        None None.

(** The verification call cannot reach the processor. *)
Definition offline_world : world :=
  World (Some "sk_live") (Rejected (TypeError "fetch failed")) accepted
        draft_created accepted None None.

(** The processor answers with something that is not JSON. *)
Definition garbled_world : world :=
  World (Some "sk_live")
        (Responded false (NotJson (SyntaxError "Unexpected token < in JSON")))
        accepted draft_created accepted None None.

(** The complete call cannot reach the commerce backend. *)
Definition half_done_world : world :=
  World (Some "sk_live") (verification "success" 500000) accepted
        draft_created (Rejected (TypeError "fetch failed")) None None.

(** The mail server refuses both messages. *)
Definition mail_refused_world : world :=
  World (Some "sk_live") (verification "success" 500000) accepted
        draft_created accepted
        (Some (Error "Invalid login: 535")) (Some (Error "Invalid login: 535")).

End Cases.

(** ** Running a try block *)

Import Js Effects Runtime Webhook Props Samples.
Local Open Scope js_scope.
Local Open Scope list_scope.

Lemma try_catch_run (m : M Empty_set) : try_catch m = run [] m.
Proof. destruct m as [r t]. reflexivity. Qed.

Lemma bind_assoc {A B C} (m : M A) (f : A -> M B) (g : B -> M C) :
  bind (bind m f) g = bind m (fun x => bind (f x) g).
Proof.
  destruct m as [[a|r|e] t]; simpl; try reflexivity.
  destruct (f a) as [[b|r|e] t1]; simpl; try reflexivity.
  destruct (g b) as [r2 t2]. now rewrite app_assoc.
Qed.

Lemma bind_ret_l {A B} (a : A) (f : A -> M B) : bind (ret a) f = f a.
Proof. unfold ret, bind. now destruct (f a). Qed.

Lemma bind_throw_l {A B} e (f : A -> M B) : bind (throw e) f = throw e.
Proof. reflexivity. Qed.

Lemma run_val {A} t (a : A) t1 (k : A -> M Empty_set) :
  run t (bind (Val a, t1) k) = run (t ++ t1) (k a).
Proof.
  unfold run. simpl. destruct (k a) as [r t2]. simpl. now rewrite app_assoc.
Qed.

Lemma run_ret {A} t (a : A) (k : A -> M Empty_set) :
  run t (bind (ret a) k) = run t (k a).
Proof. unfold ret. rewrite run_val. now rewrite app_nil_r. Qed.

Lemma run_thrown {A} t e t1 (k : A -> M Empty_set) :
  run t (bind (Throw e, t1) k) = (internal_error e, t ++ t1).
Proof. reflexivity. Qed.

Lemma run_throw {A} t e (k : A -> M Empty_set) :
  run t (bind (throw e) k) = (internal_error e, t).
Proof. unfold throw. rewrite run_thrown. now rewrite app_nil_r. Qed.

Lemma run_respond {A} t code b (k : A -> M Empty_set) :
  run t (bind (respond code b) k) = (Response code b, t).
Proof. unfold run. simpl. now rewrite app_nil_r. Qed.

Lemma run_respond_last t code b : run t (respond code b) = (Response code b, t).
Proof. unfold run. simpl. now rewrite app_nil_r. Qed.

(** *** Pure computations *)

Create HintDb js_pure.

Lemma pure_ret {A} (a : A) : pure (ret a).
Proof. left. now exists a. Qed.

Lemma pure_throw {A} e : pure (@throw A e).
Proof. right. now exists e. Qed.

Lemma pure_bind {A B} (m : M A) (f : A -> M B) :
  pure m -> (forall a, pure (f a)) -> pure (bind m f).
Proof.
  intros [[a ->]|[e ->]] Hf.
  - rewrite bind_ret_l. apply Hf.
  - right. now exists e.
Qed.

Lemma pure_if {A} (c : bool) (m1 m2 : M A) :
  pure m1 -> pure m2 -> pure (if c then m1 else m2).
Proof. now destruct c. Qed.

#[local] Hint Resolve pure_ret pure_throw pure_bind pure_if : js_pure.

Lemma get_pure v k : pure (get v k).
Proof. destruct v; simpl; auto with js_pure. Qed.

Lemma hole_pure v : pure (hole v).
Proof. unfold hole. destruct (ToString v); auto with js_pure. Qed.

Lemma to_primitive_pure v : pure (to_primitive v).
Proof. unfold to_primitive. destruct (ToString v); auto with js_pure. Qed.

Lemma destructurable_pure v : pure (destructurable v).
Proof. destruct v; simpl; auto with js_pure. Qed.

#[local] Hint Resolve get_pure hole_pure to_primitive_pure destructurable_pure : js_pure.

Lemma find_variable_pure name items : pure (find_variable name items).
Proof. induction items as [|f rest IH]; simpl; auto with js_pure. Qed.

#[local] Hint Resolve find_variable_pure : js_pure.

Lemma custom_field_pure metadata name : pure (custom_field metadata name).
Proof.
  unfold custom_field. apply pure_bind; [auto with js_pure|].
  intros fields. destruct fields; auto with js_pure.
Qed.

#[local] Hint Resolve custom_field_pure : js_pure.

Lemma extract_pure metadata name d : pure (extract metadata name d).
Proof. unfold extract. auto with js_pure. Qed.

Lemma shipping_zone_pure metadata : pure (shipping_zone metadata).
Proof. unfold shipping_zone. auto with js_pure. Qed.

Lemma variant_id_pure metadata : pure (variant_id metadata).
Proof.
  unfold variant_id. apply pure_bind; [auto with js_pure|].
  intros fields. apply pure_bind; [|auto with js_pure].
  destruct fields; auto with js_pure.
Qed.

Lemma not_verified_pure verifyData : pure (not_verified verifyData).
Proof. unfold not_verified. auto 6 with js_pure. Qed.

Lemma amount_differs_pure verifyData amount : pure (amount_differs verifyData amount).
Proof. unfold amount_differs. auto with js_pure. Qed.

Lemma compute_hash_pure P w req : pure (compute_hash P w req).
Proof.
  unfold compute_hash. destruct (PAYSTACK_SECRET_KEY w); [|auto with js_pure].
  destruct (JSON_stringify (body req)); auto with js_pure.
Qed.

#[local] Hint Resolve extract_pure shipping_zone_pure variant_id_pure
  not_verified_pure amount_differs_pure compute_hash_pure : js_pure.

(** *** Values and property reads *)

Lemma strict_eq_string v s : strict_eq v (JStr s) = true <-> v = JStr s.
Proof.
  split.
  - destruct v; simpl; try discriminate. intros H.
    apply String.eqb_eq in H. now subst.
  - intros ->. simpl. apply String.eqb_refl.
Qed.

Lemma prop_get v k : nullish v = false -> get v k = ret (prop v k).
Proof. destruct v; simpl; intros H; try discriminate; reflexivity. Qed.

Lemma prop_not_undefined v k : prop v k <> JUndefined -> nullish v = false.
Proof. destruct v; simpl; intros H; try reflexivity; now elim H. Qed.

Lemma get_cases v k :
  (nullish v = false /\ get v k = ret (prop v k)) \/
  (nullish v = true /\ exists e, get v k = throw e).
Proof. destruct v; simpl; eauto. Qed.

Lemma hole_some v s : ToString v = Some s -> hole v = ret s.
Proof. intros H. unfold hole. now rewrite H. Qed.

Lemma destructurable_ok v : nullish v = false -> destructurable v = ret tt.
Proof. destruct v; simpl; intros H; try discriminate; reflexivity. Qed.

(** *** Rules for the statements of a try block

    Each rule reduces a property [Q] of the outcome of a try block to the
    same property of what remains once its first statement has run. *)

Section Rules.

Variable Q : response * trace -> Prop.

Lemma rule_assoc {A B} t (m : M A) (f : A -> M B) (k : B -> M Empty_set) :
  Q (run t (bind m (fun x => bind (f x) k))) -> Q (run t (bind (bind m f) k)).
Proof. now rewrite bind_assoc. Qed.

Lemma rule_ret {A} t (m : M A) a (k : A -> M Empty_set) :
  m = ret a -> Q (run t (k a)) -> Q (run t (bind m k)).
Proof. intros ->. now rewrite run_ret. Qed.

Lemma rule_throw {A} t (m : M A) e (k : A -> M Empty_set) :
  m = throw e -> Q (internal_error e, t) -> Q (run t (bind m k)).
Proof. intros ->. now rewrite run_throw. Qed.

Lemma rule_respond {A} t code b (k : A -> M Empty_set) :
  Q (Response code b, t) -> Q (run t (bind (respond code b) k)).
Proof. now rewrite run_respond. Qed.

Lemma rule_respond_last t code b :
  Q (Response code b, t) -> Q (run t (respond code b)).
Proof. now rewrite run_respond_last. Qed.

Lemma rule_pure {A} t (m : M A) (k : A -> M Empty_set) :
  pure m ->
  (forall a, m = ret a -> Q (run t (k a))) ->
  (forall e, m = throw e -> Q (internal_error e, t)) ->
  Q (run t (bind m k)).
Proof.
  intros [[a Ha]|[e He]] Hret Hthrow.
  - apply (rule_ret t m a k Ha). now apply Hret.
  - apply (rule_throw t m e k He). now apply Hthrow.
Qed.

Lemma rule_get t v key (k : value -> M Empty_set) :
  (nullish v = false -> get v key = ret (prop v key) -> Q (run t (k (prop v key)))) ->
  (forall e, nullish v = true -> Q (internal_error e, t)) ->
  Q (run t (bind (get v key) k)).
Proof.
  intros Hok Hnull. destruct (get_cases v key) as [[Hn Hg]|[Hn [e Hg]]].
  - apply (rule_ret t _ _ k Hg). now apply Hok.
  - apply (rule_throw t _ _ k Hg). now apply Hnull.
Qed.

Lemma rule_when_true t (c : bool) (m : M unit) (k : unit -> M Empty_set) :
  c = true -> Q (run t (bind m k)) -> Q (run t (bind (when c m) k)).
Proof. now intros ->. Qed.

Lemma rule_when_false t (c : bool) (m : M unit) (k : unit -> M Empty_set) :
  c = false -> Q (run t (k tt)) -> Q (run t (bind (when c m) k)).
Proof. intros ->. unfold when. now rewrite run_ret. Qed.

Lemma rule_when t (c : bool) (m : M unit) (k : unit -> M Empty_set) :
  (c = true -> Q (run t (bind m k))) ->
  (c = false -> Q (run t (k tt))) ->
  Q (run t (bind (when c m) k)).
Proof.
  intros Ht Hf. destruct c eqn:Hc.
  - apply rule_when_true; auto.
  - apply rule_when_false; auto.
Qed.

Lemma rule_fetch_responded t c r o p (k : fetch_response -> M Empty_set) :
  r = Responded o p ->
  Q (run (t ++ [c]) (k (FetchResponse o p))) ->
  Q (run t (bind (fetch c r) k)).
Proof. intros ->. cbn [fetch]. now rewrite run_val. Qed.

Lemma rule_fetch_rejected t c r e (k : fetch_response -> M Empty_set) :
  r = Rejected e ->
  Q (internal_error e, t ++ [c]) ->
  Q (run t (bind (fetch c r) k)).
Proof. intros ->. cbn [fetch]. now rewrite run_thrown. Qed.

Lemma rule_fetch t c r (k : fetch_response -> M Empty_set) :
  (forall e, r = Rejected e -> Q (internal_error e, t ++ [c])) ->
  (forall o p, r = Responded o p -> Q (run (t ++ [c]) (k (FetchResponse o p)))) ->
  Q (run t (bind (fetch c r) k)).
Proof.
  intros Hrej Hres. destruct r as [e|o p] eqn:Hr.
  - apply (rule_fetch_rejected t c _ e k eq_refl). now apply Hrej.
  - apply (rule_fetch_responded t c _ o p k eq_refl). now apply Hres.
Qed.

Lemma rule_json t o p (k : value -> M Empty_set) :
  (forall v, p = Json v -> Q (run t (k v))) ->
  (forall e, p = NotJson e -> Q (internal_error e, t)) ->
  Q (run t (bind (response_json (FetchResponse o p)) k)).
Proof.
  intros Hjson Hnot. unfold response_json. cbn [content]. destruct p as [v|e].
  - rewrite run_ret. now apply Hjson.
  - rewrite run_throw. now apply Hnot.
Qed.

(** A send inside its own try/catch: the call is made and the statement
    completes, whatever the mail server answers. *)
Lemma rule_try_send t c r (k : unit -> M Empty_set) :
  Q (run (t ++ [c]) (k tt)) -> Q (run t (bind (try_log (sendMail c r)) k)).
Proof. intros H. destruct r; cbn [sendMail try_log]; now rewrite run_val. Qed.

Lemma rule_try_get_send t v key (c : value -> call) r (k : unit -> M Empty_set) :
  (nullish v = false -> Q (run (t ++ [c (prop v key)]) (k tt))) ->
  (nullish v = true -> Q (run t (k tt))) ->
  Q (run t (bind (try_log (bind (get v key) (fun x => sendMail (c x) r))) k)).
Proof.
  intros Hok Hnull. destruct (get_cases v key) as [[Hn Hg]|[Hn [e Hg]]]; rewrite Hg.
  - rewrite bind_ret_l. apply rule_try_send. now apply Hok.
  - rewrite bind_throw_l. unfold throw. cbn [try_log].
    rewrite run_val, app_nil_r. now apply Hnull.
Qed.

End Rules.

(** Keep the property of the outcome folded while the try block runs. *)
Ltac focus_run :=
  match goal with
  | |- context [run ?t ?m] =>
      pattern (run t m);
      match goal with
      | |- ?F _ => let Q := fresh "Outcome" in set (Q := F)
      end
  end.

(** The first statement is settled by a hypothesis about it. *)
Ltac step_known :=
  match goal with
  | H : ?m = ret _ |- _ (run _ (bind ?m _)) => apply (rule_ret _ _ _ _ _ H)
  | H : ?m = throw _ |- _ (run _ (bind ?m _)) => apply (rule_throw _ _ _ _ _ H)
  | H : ?c = true |- _ (run _ (bind (when ?c _) _)) =>
      apply (rule_when_true _ _ _ _ _ H)
  | H : ?c = false |- _ (run _ (bind (when ?c _) _)) =>
      apply (rule_when_false _ _ _ _ _ H)
  | H : ?r = Responded _ _ |- _ (run _ (bind (fetch _ ?r) _)) =>
      apply (rule_fetch_responded _ _ _ _ _ _ _ H)
  | H : ?r = Rejected _ |- _ (run _ (bind (fetch _ ?r) _)) =>
      apply (rule_fetch_rejected _ _ _ _ _ _ H)
  end.

(** Otherwise it is run by cases on how it ends. *)
Ltac step_cases :=
  lazymatch goal with
  | |- _ (run _ (bind (bind _ _) _)) => apply rule_assoc
  | |- _ (run _ (bind (ret _) _)) => apply (rule_ret _ _ _ _ _ eq_refl)
  | |- _ (run _ (bind (throw _) _)) => apply (rule_throw _ _ _ _ _ eq_refl)
  | |- _ (run _ (bind (respond _ _) _)) => apply rule_respond
  | |- _ (run _ (bind (when _ _) _)) =>
      first [ apply rule_when_true; [reflexivity|]
            | apply rule_when_false; [reflexivity|]
            | apply rule_when; intros ? ]
  | |- _ (run _ (bind (fetch _ _) _)) => apply rule_fetch; intros
  | |- _ (run _ (bind (response_json (FetchResponse _ (Json _))) _)) =>
      apply (rule_ret _ _ _ _ _ eq_refl)
  | |- _ (run _ (bind (response_json (FetchResponse _ _)) _)) =>
      apply rule_json; intros ? ->
  | |- _ (run _ (bind (get _ _) _)) =>
      apply rule_get; [intros ? ? | intros ? ?; try discriminate]
  | |- _ (run _ (bind (try_log (sendMail _ _)) _)) => apply rule_try_send
  | |- _ (run _ (bind (try_log (bind (get _ _) _)) _)) =>
      apply rule_try_get_send; [intros ? | intros ?; try congruence]
  | |- _ (run _ (bind _ _)) =>
      apply rule_pure; [auto 8 with js_pure | intros ? ? | intros ? ?]
  | |- _ (run _ (respond _ _)) => apply rule_respond_last
  end.

Ltac step := first [ step_known | step_cases ]; cbv beta zeta.

(** Run the whole try block, then open the property again. *)
Ltac run_block :=
  unfold try_block, try_bare, try_verified, try_order, try_dual;
  unfold date_hole, long_date_hole, prop_hole;
  cbv beta zeta; cbn [template];
  repeat step;
  match goal with
  | Q := _ |- _ => subst Q; cbv beta
  end;
  cbn [fst snd app].

(** The handler on a POST request is its try block. *)
Ltac enter Hpost :=
  unfold handler, handler_bare, handler_verified, handler_order, handler_dual;
  rewrite Hpost, String.eqb_refl; cbn [negb]; rewrite ?try_catch_run;
  focus_run.

(** ** The scenarios of the specification, on the sample platform *)

(** Scenario A: a verified charge of 500000 with [variant_id=987] on the
    order-create handler. *)
Example scenario_A_order_created :
  handler sample_platform OrderCreate (world_reporting "success" 500000)
          (order_request sample_platform) =
    (Response 200 (JObj [ ("success", JBool true); ("reference", JStr "ref_1");
                          ("message", JStr "Order created successfully") ]%string),
     [ PaystackVerify "ref_1";
       DraftOrderCreate ["buyer@example.com"; "ref_1"; "987"; "ref_1"]%string;
       DraftOrderComplete ["gid://shopify/DraftOrder/1"%string] ]).
Proof. reflexivity. Qed.

(** Scenario C on the verified notify handler: the processor reports
    400000 for a claimed 500000. *)
Example scenario_C_amount_mismatch :
  handler sample_platform VerifiedNotify mismatch_world
          (notify_request sample_platform) =
    (Response 400 (JObj [("error", JStr "Amount mismatch")]%string),
     [PaystackVerify "ref_1"]).
Proof. reflexivity. Qed.

(** Scenario D on the verified notify handler: the email API answers
    422. *)
Example scenario_D_email_rejected :
  fst (handler sample_platform VerifiedNotify email_down_world
         (notify_request sample_platform)) =
    Response 500 (JObj [("error", JStr "Failed to send email")]%string).
Proof. reflexivity. Qed.

(** ** The signature gate *)

Section Gate.

Variable P : platform.

Lemma compute_hash_authentic w req key text :
  PAYSTACK_SECRET_KEY w = Some key ->
  JSON_stringify (body req) = Some text ->
  compute_hash P w req = ret (hmac_sha512_hex P key text).
Proof. intros Hk Ht. unfold compute_hash. now rewrite Hk, Ht. Qed.

Lemma signature_differs_iff hash header :
  signature_differs hash header = false <-> header = Some hash.
Proof.
  unfold signature_differs. destruct header as [h|]; [|split; discriminate].
  rewrite negb_false_iff, String.eqb_eq. split; [now intros ->|now intros [= ->]].
Qed.

Lemma authentic_hash w req :
  authentic P w req ->
  exists hash, compute_hash P w req = ret hash /\
               signature_differs hash (x_paystack_signature req) = false.
Proof.
  intros (key & text & Hk & Ht & Hsig).
  exists (hmac_sha512_hex P key text). split.
  - now apply compute_hash_authentic.
  - now apply signature_differs_iff.
Qed.

Lemma signed_authentic key b text w :
  PAYSTACK_SECRET_KEY w = Some key ->
  JSON_stringify b = Some text ->
  authentic P w (signed P key b).
Proof.
  intros Hk Ht. exists key, text. unfold signed. simpl. now rewrite Ht.
Qed.

(** C2. A POST request whose signature header is not the keyed hash the
    handler computes over the body is answered 401 (verified notify, dual
    email) or 400 (order-create) with the invalid-signature error, and no
    outbound call has been made. *)
Theorem forged_request_rejected w req :
  method req = "POST"%string ->
  forged P w req ->
  handler P VerifiedNotify w req = (Response 401 invalid_signature, []) /\
  handler P OrderCreate w req = (Response 400 invalid_signature, []) /\
  handler P DualEmail w req = (Response 401 invalid_signature, []).
Proof.
  intros Hpost (key & text & Hk & Ht & Hsig).
  pose proof (compute_hash_authentic w req key text Hk Ht) as Hhash.
  assert (Hd : signature_differs (hmac_sha512_hex P key text)
                 (x_paystack_signature req) = true).
  { apply not_false_is_true. intros H. apply signature_differs_iff in H. auto. }
  repeat split; enter Hpost; run_block; reflexivity.
Qed.

(** C5. A POST request whose body is an event of a type other than
    [charge.success] is answered [200 {received: true}] with no outbound
    call: by the bare handler as it stands, by the three handlers with a
    signature check once the request is authentic. *)
Theorem other_events_acknowledged w req :
  method req = "POST"%string ->
  nullish (body req) = false ->
  prop (body req) "event" <> JStr "charge.success" ->
  handler P BareNotify w req = (Response 200 received, []) /\
  (authentic P w req ->
   handler P VerifiedNotify w req = (Response 200 received, []) /\
   handler P OrderCreate w req = (Response 200 received, []) /\
   handler P DualEmail w req = (Response 200 received, [])).
Proof.
  intros Hpost Hbody Hother.
  pose proof (prop_get _ "event" Hbody) as Hget.
  assert (Hne : strict_eq (prop (body req) "event") (JStr "charge.success") = false).
  { apply not_true_is_false. intros H. now apply strict_eq_string in H. }
  split.
  - enter Hpost. run_block. reflexivity.
  - intros Hauth. destruct (authentic_hash w req Hauth) as (hash & Hhash & Hsame).
    repeat split; enter Hpost; run_block; reflexivity.
Qed.

End Gate.

(** ** Totality *)

Section Totality.

Variable P : platform.

Lemma handler_unfold v w req :
  handler P v w req =
  if negb (method req =? "POST")%string then method_not_allowed
  else try_catch (try_block P v w req).
Proof. now destruct v. Qed.

Lemma try_block_status v w req :
  In (status (fst (run [] (try_block P v w req)))) [401; 400; 200; 500].
Proof.
  focus_run. destruct v; run_block; cbn [status internal_error]; auto 6 with datatypes.
Qed.

(** C10. The handler is a total function of the request and of what the
    outside world answers: it gives one response, whose status is 405,
    401, 400, 200 or 500.  A request with another method than POST gets
    405 before anything else; and when the try block of a POST request
    throws, the response is 500 with the error's message, after the calls
    made so far. *)
Theorem handler_total v w req :
  In (status (fst (handler P v w req))) [405; 401; 400; 200; 500] /\
  (method req <> "POST"%string -> handler P v w req = method_not_allowed) /\
  (forall e,
     method req = "POST"%string ->
     fst (try_block P v w req) = Throw e ->
     handler P v w req =
       (Response 500 (JObj [("error"%string, JStr (message e))]),
        snd (try_block P v w req))).
Proof.
  rewrite handler_unfold. split; [|split].
  - destruct (negb (method req =? "POST")%string).
    + simpl. auto.
    + rewrite try_catch_run. right. apply try_block_status.
  - intros Hother. apply String.eqb_neq in Hother. now rewrite Hother.
  - intros e Hpost Hthrow. rewrite Hpost, String.eqb_refl. cbn [negb].
    destruct (try_block P v w req) as [r t]. simpl in Hthrow. now subst r.
Qed.

End Totality.

(** ** Re-verification with the processor *)

Section Reverification.

Variable P : platform.

Lemma charge_success_gets req :
  charge_success req ->
  get (body req) "event" = ret (JStr "charge.success") /\
  get (body req) "data" = ret (event_data req) /\
  destructurable (event_data req) = ret tt.
Proof.
  intros [Hev Hdata].
  assert (Hbody : nullish (body req) = false).
  { apply prop_not_undefined with (k := "event"%string). now rewrite Hev. }
  repeat split.
  - now rewrite prop_get, Hev.
  - now rewrite prop_get.
  - now apply destructurable_ok.
Qed.

Lemma not_verified_value verifyData :
  nullish verifyData = false ->
  nullish (prop verifyData "data") = false ->
  not_verified verifyData =
    ret (negb (truthy (prop verifyData "status"))
         || negb (strict_eq (prop (prop verifyData "data") "status") (JStr "success"))).
Proof.
  intros Hvd Hd. unfold not_verified.
  rewrite (prop_get _ "status"%string Hvd), bind_ret_l.
  destruct (negb (truthy (prop verifyData "status"))); [reflexivity|].
  now rewrite (prop_get _ "data"%string Hvd), bind_ret_l,
    (prop_get _ "status"%string Hd), bind_ret_l.
Qed.

Lemma amount_differs_value verifyData amount :
  nullish verifyData = false ->
  nullish (prop verifyData "data") = false ->
  amount_differs verifyData amount =
    ret (negb (strict_eq (prop (prop verifyData "data") "amount") amount)).
Proof.
  intros Hvd Hd. unfold amount_differs.
  now rewrite (prop_get _ "data"%string Hvd), bind_ret_l,
    (prop_get _ "amount"%string Hd), bind_ret_l.
Qed.

(** C1, at Scenario C on the order-create handler.  The body claims
    500000 and the processor reports a successful charge of 400000: the
    handler creates and completes the draft order and answers 200.  When
    the processor reports a charge that did not succeed, the handler
    makes no order call but answers [200 {received: true}], not 400. *)
Theorem order_create_skips_amount_check :
  handler P OrderCreate mismatch_world (order_request P) =
    (Response 200 (JObj [ ("success", JBool true); ("reference", JStr "ref_1");
                          ("message", JStr "Order created successfully") ]%string),
     [ PaystackVerify "ref_1";
       DraftOrderCreate ["buyer@example.com"; "ref_1"; "987"; "ref_1"]%string;
       DraftOrderComplete ["gid://shopify/DraftOrder/1"%string] ]) /\
  handler P OrderCreate abandoned_world (order_request P) =
    (Response 200 received, [PaystackVerify "ref_1"]).
Proof.
  assert (Hauth : forall w, PAYSTACK_SECRET_KEY w = Some "sk_live"%string ->
                            authentic P w (order_request P)).
  { intros w Hk. eapply signed_authentic; [exact Hk|reflexivity]. }
  split.
  - destruct (authentic_hash P _ _ (Hauth mismatch_world eq_refl)) as (h & Hh & Hs).
    enter (eq_refl : method (order_request P) = "POST"%string).
    unfold try_order. do 2 step. subst Outcome. reflexivity.
  - destruct (authentic_hash P _ _ (Hauth abandoned_world eq_refl)) as (h & Hh & Hs).
    enter (eq_refl : method (order_request P) = "POST"%string).
    unfold try_order. do 2 step. subst Outcome. reflexivity.
Qed.

(** The two notify handlers with re-verification do what C1 asks: a
    charge the processor does not report as successful, or reports with
    another amount, is answered 400 after the verification call alone. *)
Lemma notify_rejects_untrusted v w req url verifyData :
  v = VerifiedNotify \/ v = DualEmail ->
  method req = "POST"%string ->
  authentic P w req ->
  charge_success req ->
  ToString (prop (event_data req) "reference") = Some url ->
  processor_reports w verifyData ->
  nullish verifyData = false ->
  nullish (prop verifyData "data") = false ->
  prop (prop verifyData "data") "status" <> JStr "success" \/
  strict_eq (prop (prop verifyData "data") "amount") (claimed_amount req) = false ->
  status (fst (handler P v w req)) = 400 /\
  snd (handler P v w req) = [PaystackVerify url].
Proof.
  intros Hv Hpost Hauth Hcharge Hurl [o Hreply] Hvd Hd Hbad.
  destruct (authentic_hash P w req Hauth) as (hash & Hhash & Hsame).
  destruct (charge_success_gets req Hcharge) as (Hev & Hdata & Hdes).
  apply hole_some in Hurl.
  pose proof (not_verified_value verifyData Hvd Hd) as Hnv.
  pose proof (amount_differs_value verifyData (claimed_amount req) Hvd Hd) as Had.
  unfold claimed_amount, event_data in *.
  destruct (negb (truthy (prop verifyData "status"))
            || negb (strict_eq (prop (prop verifyData "data") "status") (JStr "success")))
    eqn:Hfailed.
  - destruct Hv as [-> | ->]; enter Hpost; run_block; split; reflexivity.
  - destruct Hbad as [Hbad | Hbad].
    + exfalso. apply orb_false_iff in Hfailed as [_ Hs].
      apply Hbad, strict_eq_string. now apply negb_false_iff.
    + rewrite Hbad in Had. cbn [negb] in Had.
      destruct Hv as [-> | ->]; enter Hpost; run_block; split; reflexivity.
Qed.

End Reverification.

(** ** What the signature covers *)

Section RawBody.

Variable P : platform.

(** C3, as the code has it.  The hash compared with the header is the
    keyed hash of [JSON.stringify(req.body)], the runtime's parsed body
    written out again; the text received on the wire is not an input.  So
    requests with the same method, header and parsed body are handled
    alike, whatever their raw texts. *)
Theorem signature_covers_parsed_body w req :
  (forall hash,
     compute_hash P w req = ret hash <->
     exists key text,
       PAYSTACK_SECRET_KEY w = Some key /\
       JSON_stringify (body req) = Some text /\
       hash = hmac_sha512_hex P key text) /\
  (forall req',
     method req' = method req ->
     x_paystack_signature req' = x_paystack_signature req ->
     body req' = body req ->
     compute_hash P w req' = compute_hash P w req /\
     forall v, handler P v w req' = handler P v w req).
Proof.
  split.
  - intros hash. unfold compute_hash. split.
    + destruct (PAYSTACK_SECRET_KEY w) as [key|]; [|discriminate].
      destruct (JSON_stringify (body req)) as [text|]; [|discriminate].
      intros [= <-]. now exists key, text.
    + intros (key & text & -> & -> & ->). reflexivity.
  - intros [m' s' raw' b'] Hm Hs Hb. destruct req as [m s raw b].
    simpl in Hm, Hs, Hb. subst. split; [reflexivity|].
    intros v. destruct v; reflexivity.
Qed.

End RawBody.

(** C3, as stated, fails: the spaced text and the compact text are
    different bytes for one parsed object; for the request received as
    the spaced text the handler hashes the compact text, not the bytes it
    received, and both requests pass the check with the same header. *)
Lemma raw_bytes_are_not_what_is_hashed :
  rawBody spaced_request <> rawBody compact_request /\
  body spaced_request = body compact_request /\
  compute_hash sample_platform (world_reporting "success" 500000) spaced_request =
    ret (hmac_sha512_hex sample_platform "sk_live" (rawBody compact_request)) /\
  compute_hash sample_platform (world_reporting "success" 500000) spaced_request <>
    ret (hmac_sha512_hex sample_platform "sk_live" (rawBody spaced_request)) /\
  handler sample_platform VerifiedNotify (world_reporting "success" 500000) spaced_request =
    (Response 200 received, []) /\
  handler sample_platform VerifiedNotify (world_reporting "success" 500000) compact_request =
    (Response 200 received, []).
Proof.
  repeat split; try reflexivity; vm_compute; discriminate.
Qed.

Lemma signature_covers_parsed_body_witness :
  method spaced_request = method compact_request /\
  x_paystack_signature spaced_request = x_paystack_signature compact_request /\
  body spaced_request = body compact_request /\
  forall v,
    handler sample_platform v (world_reporting "success" 500000) spaced_request =
    handler sample_platform v (world_reporting "success" 500000) compact_request.
Proof.
  refine (conj eq_refl (conj eq_refl (conj eq_refl _))).
  apply (proj2 (signature_covers_parsed_body sample_platform
                  (world_reporting "success" 500000) compact_request)
               spaced_request eq_refl eq_refl eq_refl).
Defined.

(** ** Metadata fields *)

Lemma named_get name f :
  named name f = true -> get f "variable_name" = ret (JStr name).
Proof.
  unfold named. intros H. apply strict_eq_string in H.
  rewrite prop_get, H; [reflexivity|].
  apply prop_not_undefined with (k := "variable_name"%string). now rewrite H.
Qed.

Lemma find_variable_skip name g rest :
  nullish g = false -> named name g = false ->
  find_variable name (g :: rest) = find_variable name rest.
Proof.
  intros Hg Hn. cbn [find_variable]. rewrite (prop_get _ _ Hg), bind_ret_l.
  unfold named in Hn. now rewrite Hn.
Qed.

Lemma find_variable_first name pre f post :
  Forall (fun g => nullish g = false) pre ->
  forallb (fun g => negb (named name g)) pre = true ->
  named name f = true ->
  find_variable name (pre ++ f :: post) = ret f.
Proof.
  intros Hobj Hpre Hf. induction pre as [|g pre IH]; simpl.
  - rewrite (named_get _ _ Hf), bind_ret_l. cbn [strict_eq].
    now rewrite String.eqb_refl.
  - inversion Hobj as [|? ? Hg Hrest]; subst. simpl in Hpre.
    apply andb_true_iff in Hpre as [Hn Hpre]. apply negb_true_iff in Hn.
    fold (find_variable name (pre ++ f :: post)).
    change (find_variable name ((g :: pre) ++ f :: post) = ret f).
    cbn [app]. rewrite find_variable_skip; auto.
Qed.

Lemma find_variable_none name items :
  Forall (fun g => nullish g = false) items ->
  forallb (fun g => negb (named name g)) items = true ->
  find_variable name items = ret JUndefined.
Proof.
  intros Hobj Hall. induction items as [|g items IH]; [reflexivity|].
  inversion Hobj as [|? ? Hg Hrest]; subst. simpl in Hall.
  apply andb_true_iff in Hall as [Hn Hall]. apply negb_true_iff in Hn.
  rewrite find_variable_skip; auto.
Qed.

Lemma named_not_nullish name f : named name f = true -> nullish f = false.
Proof.
  unfold named. intros H. apply strict_eq_string in H.
  apply prop_not_undefined with (k := "variable_name"%string). now rewrite H.
Qed.

(** C6, as the code has it.  The extraction of the notify handlers,
    [custom_fields?.find(..)?.value || d], never throws on a metadata
    object whose field sequence is absent, empty or made of entries: it
    returns the default when the sequence is absent or no entry has the
    name, and otherwise looks at the first entry with exactly that name
    only, returning its value when that value is truthy and the default
    when it is falsy. *)
Theorem extract_first_truthy_or_default metadata name d :
  nullish metadata = false ->
  (nullish (prop metadata "custom_fields") = true ->
   extract metadata name d = ret (JStr d)) /\
  (forall items,
     prop metadata "custom_fields" = JArr items ->
     (Forall (fun f => nullish f = false) items ->
      forallb (fun f => negb (named name f)) items = true ->
      extract metadata name d = ret (JStr d)) /\
     (forall pre f post,
        items = pre ++ f :: post ->
        Forall (fun g => nullish g = false) pre ->
        forallb (fun g => negb (named name g)) pre = true ->
        named name f = true ->
        extract metadata name d =
          ret (if truthy (prop f "value") then prop f "value" else JStr d))).
Proof.
  intros Hmeta. unfold extract, custom_field.
  rewrite (prop_get _ "custom_fields"%string Hmeta), bind_ret_l.
  split.
  - intros Habsent.
    destruct (prop metadata "custom_fields"); try discriminate; reflexivity.
  - intros items ->. split.
    + intros Hobj Hnone. now rewrite find_variable_none.
    + intros pre f post -> Hobj Hpre Hf.
      rewrite find_variable_first by assumption.
      rewrite bind_ret_l, (named_not_nullish _ _ Hf), bind_ret_l. reflexivity.
Qed.

(** C6, as stated, fails: the first (and only) entry named
    [product_title] has the empty string as its value and the extraction
    returns the default instead; and the variant id lookup of the
    order-create handler throws when the sequence is absent. *)
Lemma empty_value_is_replaced_by_default :
  find_variable "product_title" [entry "product_title" (JStr "")] =
    ret (entry "product_title" (JStr "")) /\
  prop (entry "product_title" (JStr "")) "value" = JStr "" /\
  extract untitled "product_title" "Unknown Product" = ret (JStr "Unknown Product") /\
  extract untitled "product_title" "Unknown Product" <> ret (JStr "") /\
  variant_id (JObj []) =
    throw (TypeError "Cannot read properties of undefined (reading 'find')").
Proof. repeat split; try reflexivity. discriminate. Qed.

Lemma extract_first_truthy_or_default_witness :
  nullish untitled = false /\
  prop untitled "custom_fields" = JArr ([] ++ entry "product_title" (JStr "") :: []) /\
  named "product_title" (entry "product_title" (JStr "")) = true /\
  extract untitled "product_title" "Unknown Product" = ret (JStr "Unknown Product").
Proof.
  refine (conj eq_refl (conj eq_refl (conj eq_refl _))).
  apply (proj2 (proj2 (extract_first_truthy_or_default untitled "product_title"
                         "Unknown Product" eq_refl) _ eq_refl)
           [] (entry "product_title" (JStr "")) [] eq_refl (Forall_nil _) eq_refl eq_refl).
Defined.

(** ** The order-create path *)

Section OrderCreate.

Variable P : platform.

Ltac calls_checked := cbn [snd fst app]; repeat constructor.

(** C7. When the variant id lookup gives nothing (it throws, or its result
    is falsy), the order-create handler makes no call to the commerce
    backend, whatever else happens; and for an authentic [charge.success]
    event that the processor reports as successful, the response is 500
    after the verification call alone, with the message of the thrown
    error, which is "Variant ID not found in metadata" when the lookup
    itself did not throw. *)
Theorem missing_variant_id_stops_order w req :
  no_variant_id (event_metadata req) ->
  Forall (fun c => is_order_call c = false) (snd (handler P OrderCreate w req)) /\
  (forall url verifyData,
     method req = "POST"%string ->
     authentic P w req ->
     charge_success req ->
     ToString (prop (event_data req) "reference") = Some url ->
     processor_reports w verifyData ->
     prop (prop verifyData "data") "status" = JStr "success" ->
     exists msg,
       handler P OrderCreate w req =
         (Response 500 (JObj [("error"%string, JStr msg)]), [PaystackVerify url]) /\
       (forall v, variant_id (event_metadata req) = ret v ->
                  msg = "Variant ID not found in metadata"%string)).
Proof.
  intros Hno. unfold no_variant_id in Hno.
  assert (Hid : (exists v, variant_id (event_metadata req) = ret v /\
                           negb (truthy v) = true) \/
                (exists e, variant_id (event_metadata req) = throw e)).
  { destruct (variant_id_pure (event_metadata req)) as [[v Hv]|[e He]].
    - left. exists v. split; [exact Hv|]. rewrite Hv in Hno. simpl in Hno.
      now rewrite Hno.
    - right. now exists e. }
  clear Hno. unfold event_metadata, event_data in *. split.
  - rewrite handler_unfold. destruct (negb (method req =? "POST")%string).
    + constructor.
    + rewrite try_catch_run. focus_run.
      destruct Hid as [(v & Hv & Hfalsy)|(e & He)]; run_block; calls_checked.
  - intros url verifyData Hpost Hauth Hcharge Hurl [o Hreply] Hstatus.
    destruct (authentic_hash P w req Hauth) as (hash & Hhash & Hsame).
    destruct (charge_success_gets req Hcharge) as (Hev & Hdata & Hdes).
    apply hole_some in Hurl.
    assert (Hd : nullish (prop verifyData "data") = false).
    { apply prop_not_undefined with (k := "status"%string). now rewrite Hstatus. }
    assert (Hvd : nullish verifyData = false).
    { apply prop_not_undefined with (k := "data"%string).
      intros H. rewrite H in Hd. discriminate. }
    pose proof (prop_get _ "data"%string Hvd) as Hg1.
    pose proof (prop_get _ "status"%string Hd) as Hg2.
    rewrite Hstatus in Hg2. unfold event_data in *.
    destruct Hid as [(v & Hv & Hfalsy)|(e & He)].
    + exists "Variant ID not found in metadata"%string. split; [|reflexivity].
      enter Hpost. run_block. reflexivity.
    + exists (message e). split.
      * enter Hpost. run_block. reflexivity.
      * intros v Hv. rewrite Hv in He. discriminate.
Qed.

Ltac no_complete_call :=
  split;
  [ intros ? Hin; cbn [snd app In] in Hin;
    repeat (destruct Hin as [Hin|Hin]; [discriminate Hin|]); destruct Hin
  | intros _; calls_checked ].

(** C8. The two mutations are sequential: whenever the complete call is
    made, the calls of the request are the verification, then the
    draft-order-create call, then the complete call, and the create call
    had not failed.  So when the create call fails (the fetch is rejected,
    the body is not JSON, the reply carries GraphQL errors or holds no
    draft order), the complete call is not made. *)
Theorem order_calls_sequential w req :
  (forall q,
     In (DraftOrderComplete q) (snd (handler P OrderCreate w req)) ->
     draft_create_failed (shopify_draftOrderCreate w) = false /\
     exists url q1,
       snd (handler P OrderCreate w req) =
         [PaystackVerify url; DraftOrderCreate q1; DraftOrderComplete q]) /\
  (draft_create_failed (shopify_draftOrderCreate w) = true ->
   Forall (fun c => is_complete_call c = false) (snd (handler P OrderCreate w req))).
Proof.
  rewrite handler_unfold. destruct (negb (method req =? "POST")%string).
  { unfold method_not_allowed. no_complete_call. }
  rewrite try_catch_run. focus_run. run_block.
  all: try solve [no_complete_call].
  all: match goal with
       | H : shopify_draftOrderCreate _ = Responded _ _ |- _ => rewrite H
       end.
  all: cbn [draft_create_failed];
       repeat match goal with
              | H : nullish _ = false |- _ => rewrite H
              | H : truthy _ = false |- _ => rewrite H
              end; cbn [orb].
  all: split; [|discriminate].
  all: intros q Hin; cbn [snd app In] in Hin.
  all: destruct Hin as [Hin|[Hin|[Hin|[]]]]; try discriminate Hin.
  all: injection Hin as <-; split; [reflexivity|].
  all: eexists _, _; reflexivity.
Qed.

End OrderCreate.

(** ** The notify path *)

Section Notify.

Variable P : platform.

Ltac not_in_trace Hin :=
  cbn [snd fst app In] in Hin;
  repeat (destruct Hin as [Hin|Hin]; [try discriminate Hin|]);
  try (destruct Hin).

(** C9, as the code has it.  Whenever a handler calls the HTTP email API
    and the reply is not 2xx, the response is 500 with "Failed to send
    email" (bare and verified notify; the other two never make that
    call).  In the dual-email handler each SMTP send has its own
    try/catch: whenever one of the two sends is attempted, the calls of
    the request are the verification, the admin send and the customer
    send, whatever the mail server answers to either, and the response
    is 200. *)
Theorem email_failure_handling w req :
  (forall v p subject html,
     resend_emails w = Responded false p ->
     In (ResendEmail subject html) (snd (handler P v w req)) ->
     fst (handler P v w req) =
       Response 500 (JObj [("error"%string, JStr "Failed to send email")])) /\
  (forall to subject html,
     In (SendMail to subject html) (snd (handler P DualEmail w req)) ->
     status (fst (handler P DualEmail w req)) = 200 /\
     exists url s1 h1 s2 h2,
       snd (handler P DualEmail w req) =
         [ PaystackVerify url;
           SendMail [JStr "support@jegolden.com"] s1 h1;
           SendMail [prop (prop (event_data req) "customer") "email"] s2 h2 ]).
Proof.
  split.
  - intros v p subject html Hreply. rewrite handler_unfold.
    destruct (negb (method req =? "POST")%string).
    { intros Hin. destruct Hin. }
    rewrite try_catch_run. focus_run. destruct v; run_block.
    all: intros Hin; try reflexivity; exfalso; not_in_trace Hin.
  - intros to subject html. rewrite handler_unfold.
    destruct (negb (method req =? "POST")%string).
    { intros Hin. destruct Hin. }
    rewrite try_catch_run. unfold event_data. focus_run. run_block.
    all: intros Hin.
    all: try solve [exfalso; not_in_trace Hin].
    all: split; [reflexivity|]; eexists _, _, _, _, _; reflexivity.
Qed.

End Notify.

(** C9, as stated, fails on the dual-email handler: the event is fully
    verified, the mail server refuses the admin message, and the handler
    answers 200 (both sends having been attempted). *)
Lemma dual_email_failure_answers_200 :
  smtp_admin smtp_down_world = Some (Error "Invalid login: 535") /\
  handler sample_platform DualEmail smtp_down_world (notify_request sample_platform) =
    (Response 200
       (JObj [ ("success", JBool true); ("reference", JStr "ref_1");
               ("verified", JBool true);
               ("message", JStr "Payment verified, admin notification and customer order summary sent") ]%string),
     [ PaystackVerify "ref_1";
       SendMail [JStr "support@jegolden.com"] ["ref_1"%string]
         [ "ref_1"; "NGN 5,000.00"; "1/1/2025, 12:00:00 AM"; "Ada";
           "buyer@example.com"; "N/A"; "N/A"; "NGN 0.00"; "N/A";
           "Unknown Product"; "N/A"; "ref_1" ]%string;
       SendMail [JStr "buyer@example.com"] ["ref_1"%string]
         [ "Ada"; "ref_1"; "1 January 2025"; "Unknown Product";
           "NGN 5,000.00"; "NGN 5,000.00"; "N/A"; "NGN 0.00"; "NGN 5,000.00";
           "Ada"; "N/A"; "N/A"; "N/A"; "2025" ]%string ]) /\
  status (fst (handler sample_platform DualEmail smtp_down_world
                 (notify_request sample_platform))) <> 500.
Proof. split; [reflexivity|]. split; [reflexivity|]. vm_compute. discriminate. Qed.

(** ** The theorems at the sample requests *)

Lemma forged_request_is_forged :
  forged sample_platform (world_reporting "success" 500000) forged_request.
Proof.
  eexists _, _. split; [reflexivity|]. split; [reflexivity|].
  vm_compute. discriminate.
Qed.

Lemma forged_request_rejected_witness :
  method forged_request = "POST"%string /\
  forged sample_platform (world_reporting "success" 500000) forged_request /\
  handler sample_platform VerifiedNotify (world_reporting "success" 500000)
          forged_request = (Response 401 invalid_signature, []) /\
  handler sample_platform OrderCreate (world_reporting "success" 500000)
          forged_request = (Response 400 invalid_signature, []) /\
  handler sample_platform DualEmail (world_reporting "success" 500000)
          forged_request = (Response 401 invalid_signature, []).
Proof.
  refine (conj eq_refl (conj forged_request_is_forged _)).
  apply (forged_request_rejected sample_platform (world_reporting "success" 500000)
           forged_request eq_refl forged_request_is_forged).
Defined.

Lemma ping_authentic :
  authentic sample_platform (world_reporting "success" 500000)
            (ping_request sample_platform).
Proof. eapply signed_authentic; reflexivity. Qed.

Lemma no_variant_request_authentic :
  authentic sample_platform (world_reporting "success" 500000)
            (no_variant_request sample_platform).
Proof. eapply signed_authentic; reflexivity. Qed.

Lemma ping_is_another_event :
  prop (body (ping_request sample_platform)) "event" <> JStr "charge.success".
Proof. vm_compute. discriminate. Qed.

Lemma other_events_acknowledged_witness :
  method (ping_request sample_platform) = "POST"%string /\
  nullish (body (ping_request sample_platform)) = false /\
  prop (body (ping_request sample_platform)) "event" <> JStr "charge.success" /\
  authentic sample_platform (world_reporting "success" 500000)
            (ping_request sample_platform) /\
  handler sample_platform OrderCreate (world_reporting "success" 500000)
          (ping_request sample_platform) = (Response 200 received, []).
Proof.
  refine (conj eq_refl (conj eq_refl (conj ping_is_another_event
            (conj ping_authentic _)))).
  apply (proj2 (other_events_acknowledged sample_platform
                  (world_reporting "success" 500000) (ping_request sample_platform)
                  eq_refl eq_refl ping_is_another_event)
               ping_authentic).
Defined.

Lemma handler_total_witness :
  method empty_request = "POST"%string /\
  fst (try_block sample_platform BareNotify (world_reporting "success" 500000)
         empty_request) =
    Throw (TypeError "Cannot read properties of undefined (reading 'event')") /\
  handler sample_platform BareNotify (world_reporting "success" 500000) empty_request =
    (Response 500
       (JObj [("error", JStr "Cannot read properties of undefined (reading 'event')")]%string),
     []).
Proof.
  refine (conj eq_refl (conj eq_refl _)).
  apply (proj2 (proj2 (handler_total sample_platform BareNotify
                         (world_reporting "success" 500000) empty_request))
               (TypeError "Cannot read properties of undefined (reading 'event')")
               eq_refl eq_refl).
Defined.

Lemma no_variant_request_charge : charge_success (no_variant_request sample_platform).
Proof. split; reflexivity. Qed.

Lemma missing_variant_id_stops_order_witness :
  no_variant_id (event_metadata (no_variant_request sample_platform)) /\
  method (no_variant_request sample_platform) = "POST"%string /\
  authentic sample_platform (world_reporting "success" 500000)
            (no_variant_request sample_platform) /\
  charge_success (no_variant_request sample_platform) /\
  processor_reports (world_reporting "success" 500000)
    (JObj [ ("status", JBool true);
            ("data", JObj [("status", JStr "success"); ("amount", JNum 500000)]) ]%string) /\
  Forall (fun c => is_order_call c = false)
    (snd (handler sample_platform OrderCreate (world_reporting "success" 500000)
            (no_variant_request sample_platform))) /\
  exists msg,
    handler sample_platform OrderCreate (world_reporting "success" 500000)
            (no_variant_request sample_platform) =
      (Response 500 (JObj [("error"%string, JStr msg)]), [PaystackVerify "ref_1"]) /\
    (forall v,
       variant_id (event_metadata (no_variant_request sample_platform)) = ret v ->
       msg = "Variant ID not found in metadata"%string).
Proof.
  refine (conj eq_refl (conj eq_refl (conj no_variant_request_authentic
            (conj no_variant_request_charge (conj (ex_intro _ true eq_refl) _))))).
  pose proof (missing_variant_id_stops_order sample_platform
                (world_reporting "success" 500000)
                (no_variant_request sample_platform) eq_refl) as [Hcalls Hresp].
  split; [exact Hcalls|].
  exact (Hresp "ref_1"%string _ eq_refl no_variant_request_authentic
           no_variant_request_charge eq_refl (ex_intro _ true eq_refl) eq_refl).
Defined.

Lemma order_calls_sequential_witness :
  draft_create_failed (shopify_draftOrderCreate refusing_world) = true /\
  Forall (fun c => is_complete_call c = false)
    (snd (handler sample_platform OrderCreate refusing_world
            (order_request sample_platform))).
Proof.
  refine (conj eq_refl _).
  apply (proj2 (order_calls_sequential sample_platform refusing_world
                  (order_request sample_platform)) eq_refl).
Defined.

Lemma email_failure_handling_witness :
  resend_emails email_down_world =
    Responded false (Json (JObj [("message", JStr "Invalid API key")]%string)) /\
  In (ResendEmail ["ref_1"%string]
        [ "ref_1"; "NGN 5,000.00"; "1/1/2025, 12:00:00 AM"; "Ada";
          "buyer@example.com"; "N/A"; "N/A"; "NGN 0.00"; "N/A";
          "Unknown Product"; "N/A"; "ref_1" ]%string)
     (snd (handler sample_platform VerifiedNotify email_down_world
             (notify_request sample_platform))) /\
  fst (handler sample_platform VerifiedNotify email_down_world
         (notify_request sample_platform)) =
    Response 500 (JObj [("error"%string, JStr "Failed to send email")]).
Proof.
  refine (conj eq_refl (conj (or_intror (or_introl eq_refl)) _)).
  apply (proj1 (email_failure_handling sample_platform email_down_world
                  (notify_request sample_platform))
               VerifiedNotify _ _ _ eq_refl (or_intror (or_introl eq_refl))).
Defined.

(** * Further properties of the handlers *)

Import Fields Cases.

Section CallOrder.

Variable P : platform.

(** X1. Whatever the request and whatever the services answer, the calls
    of a handler follow its fixed order, each made at most once: the bare
    handler never verifies, the notify handlers never touch the commerce
    backend, the order-create handler never sends mail. *)
Theorem calls_follow_order v w req :
  call_order v (snd (handler P v w req)) = true.
Proof.
  rewrite handler_unfold. destruct (negb (method req =? "POST")%string).
  { now destruct v. }
  rewrite try_catch_run. focus_run. destruct v; run_block; reflexivity.
Qed.

End CallOrder.

(** ** What must have happened before a downstream call *)

Section Guards.

Variable P : platform.

Lemma hash_computed w req hash :
  compute_hash P w req = ret hash ->
  exists key text,
    PAYSTACK_SECRET_KEY w = Some key /\
    JSON_stringify (body req) = Some text /\
    hash = hmac_sha512_hex P key text.
Proof.
  unfold compute_hash.
  destruct (PAYSTACK_SECRET_KEY w) as [key|]; [|discriminate].
  destruct (JSON_stringify (body req)) as [text|]; [|discriminate].
  intros [= <-]. now exists key, text.
Qed.

Lemma authentic_of_hash w req hash :
  compute_hash P w req = ret hash ->
  signature_differs hash (x_paystack_signature req) = false ->
  authentic P w req.
Proof.
  intros Hh Hs. destruct (hash_computed w req hash Hh) as (key & text & Hk & Ht & ->).
  exists key, text. repeat split; auto. now apply signature_differs_iff.
Qed.

Lemma forged_of_hash w req hash :
  compute_hash P w req = ret hash ->
  signature_differs hash (x_paystack_signature req) = true ->
  forged P w req.
Proof.
  intros Hh Hs. destruct (hash_computed w req hash Hh) as (key & text & Hk & Ht & ->).
  exists key, text. repeat split; auto. intros Heq.
  apply (signature_differs_iff (hmac_sha512_hex P key text)) in Heq. congruence.
Qed.

Lemma get_ret_inv v k x : get v k = ret x -> nullish v = false /\ x = prop v k.
Proof.
  destruct (get_cases v k) as [[Hn Hg]|[Hn [e Hg]]]; rewrite Hg.
  - intros [= <-]. auto.
  - discriminate.
Qed.

Lemma not_verified_false verifyData :
  not_verified verifyData = ret false ->
  truthy (prop verifyData "status") = true /\
  prop (prop verifyData "data") "status" = JStr "success".
Proof.
  unfold not_verified.
  destruct (get_cases verifyData "status") as [[Hn Hg]|[Hn [e Hg]]]; rewrite Hg;
    [rewrite bind_ret_l|discriminate].
  destruct (truthy (prop verifyData "status")); cbn [negb]; [|discriminate].
  rewrite (prop_get _ "data"%string Hn), bind_ret_l.
  destruct (get_cases (prop verifyData "data") "status") as [[Hn' Hg']|[Hn' [e Hg']]];
    rewrite Hg'; [rewrite bind_ret_l|discriminate].
  intros [= H]. split; [reflexivity|].
  apply strict_eq_string. now apply negb_false_iff.
Qed.

Lemma amount_differs_false verifyData amount :
  amount_differs verifyData amount = ret false ->
  strict_eq (prop (prop verifyData "data") "amount") amount = true.
Proof.
  unfold amount_differs.
  destruct (get_cases verifyData "data") as [[Hn Hg]|[Hn [e Hg]]]; rewrite Hg;
    [rewrite bind_ret_l|discriminate].
  destruct (get_cases (prop verifyData "data") "amount") as [[Hn' Hg']|[Hn' [e Hg']]];
    rewrite Hg'; [rewrite bind_ret_l|discriminate].
  intros [= H]. now apply negb_false_iff.
Qed.

(** The facts a finished run leaves in the context, put together. *)
Ltac gate_passed :=
  match goal with
  | Hh : compute_hash P _ _ = ret ?h,
    Hs : signature_differs ?h _ = false |- authentic P _ _ =>
      exact (authentic_of_hash _ _ _ Hh Hs)
  end.

Ltac charge_event :=
  match goal with
  | H : strict_eq (prop (body _) "event") _ = true |- _ =>
      exact (proj1 (strict_eq_string _ _) H)
  end.

Ltac processor_confirmed :=
  match goal with
  | Hr : paystack_verify _ = Responded _ (Json ?vd),
    Hv : not_verified ?vd = ret ?a, Ha : ?a = false,
    Hm : amount_differs ?vd _ = ret ?b, Hb : ?b = false |- _ =>
      subst a b; exists vd;
      destruct (not_verified_false _ Hv) as [? ?];
      pose proof (amount_differs_false _ _ Hm);
      repeat split; [eexists; exact Hr|assumption..]
  end.

(** X2. The notify handlers with re-verification send mail only for a POST
    request that is authentic, is a [charge.success] event, and whose
    charge the processor has confirmed with the amount the body claims. *)
Theorem mail_only_after_confirmation v w req :
  v = VerifiedNotify \/ v = DualEmail ->
  existsb is_email_call (snd (handler P v w req)) = true ->
  method req = "POST"%string /\
  authentic P w req /\
  prop (body req) "event" = JStr "charge.success" /\
  confirms w (claimed_amount req).
Proof.
  intros Hv. rewrite handler_unfold.
  destruct (method req =? "POST")%string eqn:Hpost; cbn [negb].
  2: { discriminate. }
  apply String.eqb_eq in Hpost. rewrite try_catch_run.
  unfold confirms, claimed_amount, event_data. focus_run.
  destruct Hv as [-> | ->]; run_block.
  all: cbn [existsb is_email_call orb]; intros Hsent; try discriminate Hsent.
  all: split; [exact Hpost|]; split; [gate_passed|]; split; [charge_event|].
  all: processor_confirmed.
Qed.

(** X3. The order-create handler calls the commerce backend only for a
    POST request that is authentic, is a [charge.success] event, whose
    charge the processor reports as successful, and whose metadata gives
    a truthy variant id. *)
Theorem order_only_after_checks w req :
  existsb is_order_call (snd (handler P OrderCreate w req)) = true ->
  method req = "POST"%string /\
  authentic P w req /\
  prop (body req) "event" = JStr "charge.success" /\
  reports_success w /\
  exists variantId,
    variant_id (event_metadata req) = ret variantId /\ truthy variantId = true.
Proof.
  rewrite handler_unfold.
  destruct (method req =? "POST")%string eqn:Hpost; cbn [negb].
  2: { discriminate. }
  apply String.eqb_eq in Hpost. rewrite try_catch_run.
  unfold reports_success, event_metadata, event_data. focus_run. run_block.
  all: cbn [existsb is_order_call orb]; intros Hsent; try discriminate Hsent.
  all: split; [exact Hpost|]; split; [gate_passed|]; split; [charge_event|].
  all: split;
    [ match goal with
      | Hr : paystack_verify _ = Responded _ (Json ?vd),
        Hs : strict_eq (prop (prop ?vd "data") "status") _ = true |- _ =>
          exists vd; split; [eexists; exact Hr|];
          exact (proj1 (strict_eq_string _ _) Hs)
      end
    | match goal with
      | Hv : variant_id _ = ret ?x, Hf : negb (truthy ?x) = false |- _ =>
          exists x; split; [exact Hv|]; now apply negb_false_iff
      end ].
Qed.

(** X4. A handler that checks the signature gives its invalid-signature
    answer exactly to the POST requests whose header is not the hash it
    computes: an authentic request is never turned away as forged, and
    nothing else produces that answer. *)
Theorem invalid_signature_iff_forged v w req :
  v <> BareNotify ->
  fst (handler P v w req) = Response (invalid_signature_status v) invalid_signature <->
  method req = "POST"%string /\ forged P w req.
Proof.
  intros Hv. split.
  - rewrite handler_unfold.
    destruct (method req =? "POST")%string eqn:Hpost; cbn [negb].
    2: { destruct v; discriminate. }
    apply String.eqb_eq in Hpost. rewrite try_catch_run. focus_run.
    destruct v; [now elim Hv| | |]; run_block.
    all: cbn [invalid_signature_status]; intros Hresp; try discriminate Hresp.
    all: split; [exact Hpost|].
    all: match goal with
         | Hh : compute_hash P _ _ = ret ?h,
           Hs : signature_differs ?h _ = true |- _ =>
             exact (forged_of_hash _ _ _ Hh Hs)
         end.
  - intros [Hpost (key & text & Hk & Ht & Hsig)].
    pose proof (compute_hash_authentic P w req key text Hk Ht) as Hhash.
    assert (Hd : signature_differs (hmac_sha512_hex P key text)
                   (x_paystack_signature req) = true).
    { apply not_false_is_true. intros H. apply signature_differs_iff in H. auto. }
    destruct v; [now elim Hv| | |]; enter Hpost; run_block; reflexivity.
Qed.

End Guards.

(** ** Failures that surface as 500 or 400 *)

Section Failures.

Variable P : platform.

(** X5. Without a signing secret in the environment, the three handlers
    that check the signature answer every POST request with 500 and call
    nothing: the gate fails closed. *)
Theorem missing_secret_fails_closed v w req :
  v <> BareNotify ->
  method req = "POST"%string ->
  PAYSTACK_SECRET_KEY w = None ->
  status (fst (handler P v w req)) = 500 /\ snd (handler P v w req) = [].
Proof.
  intros Hv Hpost Hkey.
  assert (Hhash : compute_hash P w req =
                  throw (TypeError "The key argument must be of type string")).
  { unfold compute_hash. now rewrite Hkey. }
  destruct v; [now elim Hv| | |]; enter Hpost; run_block; split; reflexivity.
Qed.

(** X6. For an authentic [charge.success] event, when the verification
    call is rejected, or its answer is not JSON, the three handlers with
    re-verification answer 500 with that error's message, and the
    verification call is the only call made. *)
Theorem verification_failure_is_500 v w req url e :
  v <> BareNotify ->
  method req = "POST"%string ->
  authentic P w req ->
  charge_success req ->
  ToString (prop (event_data req) "reference") = Some url ->
  paystack_verify w = Rejected e \/
  (exists o, paystack_verify w = Responded o (NotJson e)) ->
  handler P v w req =
    (Response 500 (JObj [("error"%string, JStr (message e))]), [PaystackVerify url]).
Proof.
  intros Hv Hpost Hauth Hcharge Hurl Hfail.
  destruct (authentic_hash P w req Hauth) as (hash & Hhash & Hsame).
  destruct (charge_success_gets req Hcharge) as (Hev & Hdata & Hdes).
  apply hole_some in Hurl. unfold event_data in *.
  destruct Hfail as [Hrej | [o Hnot]];
    (destruct v; [now elim Hv| | |]); enter Hpost; run_block; reflexivity.
Qed.

(** X7. The two answers of the notify handlers to a charge that
    re-verification does not confirm: "Payment not verified" when the
    processor's reply is not a successful charge, "Amount mismatch" when
    it is one of another amount; either way 400 after the verification
    call alone. *)
Theorem unconfirmed_charge_answers v w req url verifyData :
  v = VerifiedNotify \/ v = DualEmail ->
  method req = "POST"%string ->
  authentic P w req ->
  charge_success req ->
  ToString (prop (event_data req) "reference") = Some url ->
  processor_reports w verifyData ->
  nullish verifyData = false ->
  nullish (prop verifyData "data") = false ->
  (truthy (prop verifyData "status") = false \/
   prop (prop verifyData "data") "status" <> JStr "success" ->
   handler P v w req =
     (Response 400 (JObj [("error"%string, JStr "Payment not verified")]),
      [PaystackVerify url])) /\
  (truthy (prop verifyData "status") = true ->
   prop (prop verifyData "data") "status" = JStr "success" ->
   strict_eq (prop (prop verifyData "data") "amount") (claimed_amount req) = false ->
   handler P v w req =
     (Response 400 (JObj [("error"%string, JStr "Amount mismatch")]),
      [PaystackVerify url])).
Proof.
  intros Hv Hpost Hauth Hcharge Hurl [o Hreply] Hvd Hd.
  destruct (authentic_hash P w req Hauth) as (hash & Hhash & Hsame).
  destruct (charge_success_gets req Hcharge) as (Hev & Hdata & Hdes).
  apply hole_some in Hurl.
  pose proof (not_verified_value verifyData Hvd Hd) as Hnv.
  pose proof (amount_differs_value verifyData (claimed_amount req) Hvd Hd) as Had.
  unfold claimed_amount, event_data in *. split.
  - intros Hbad.
    assert (Hfailed :
              negb (truthy (prop verifyData "status"))
              || negb (strict_eq (prop (prop verifyData "data") "status")
                         (JStr "success")) = true).
    { destruct Hbad as [Hs | Hs].
      - now rewrite Hs.
      - apply orb_true_iff. right. apply negb_true_iff, not_true_is_false.
        intros H. now apply strict_eq_string in H. }
    rewrite Hfailed in Hnv.
    destruct Hv as [-> | ->]; enter Hpost; run_block; reflexivity.
  - intros Hs1 Hs2 Hamount. rewrite Hs1, Hs2 in Hnv. cbn in Hnv.
    rewrite Hamount in Had. cbn [negb] in Had.
    destruct Hv as [-> | ->]; enter Hpost; run_block; reflexivity.
Qed.

Lemma truthy_stringify v : truthy v = true -> exists text, JSON_stringify v = Some text.
Proof. destruct v as [| |[]| | | |]; simpl; intros H; try discriminate; eauto. Qed.

(** X8. When the commerce backend answers the draft-order-create call
    with GraphQL errors, the order-create handler answers 500 with
    "Shopify API error: " followed by the errors written as JSON, and the
    complete call is not made. *)
Theorem graphql_errors_are_500 w req o shopifyData query :
  shopify_draftOrderCreate w = Responded o (Json shopifyData) ->
  truthy (prop shopifyData "errors") = true ->
  In (DraftOrderCreate query) (snd (handler P OrderCreate w req)) ->
  exists url text,
    JSON_stringify (prop shopifyData "errors") = Some text /\
    handler P OrderCreate w req =
      (Response 500 (JObj [("error", JStr ("Shopify API error: " ++ text))]%string),
       [PaystackVerify url; DraftOrderCreate query]).
Proof.
  intros Hreply Herrors.
  destruct (truthy_stringify _ Herrors) as [text Htext].
  assert (Hsd : nullish shopifyData = false).
  { apply prop_not_undefined with (k := "errors"%string).
    intros H. rewrite H in Herrors. discriminate. }
  rewrite handler_unfold. destruct (negb (method req =? "POST")%string).
  { intros Hin. destruct Hin. }
  rewrite try_catch_run. focus_run. run_block.
  all: intros Hin; cbn [In] in Hin.
  all: repeat (destruct Hin as [Hin|Hin]; [try discriminate Hin|]);
       try solve [destruct Hin]; try congruence.
  all: injection Hin as <-; eexists _, text; split; [exact Htext|].
  all: rewrite Htext; reflexivity.
Qed.

End Failures.

(** ** Typed payment records *)

Lemma find_variable_fields name entries :
  find_variable name (fields_of entries) =
  ret (match first_text name entries with
       | Some s => entry name (JStr s)
       | None => JUndefined
       end).
Proof.
  induction entries as [|[n s] rest IH]; [reflexivity|].
  cbn [fields_of map fst snd find_variable first_text].
  change (get (entry n (JStr s)) "variable_name") with (ret (JStr n)).
  rewrite bind_ret_l. cbn [strict_eq].
  destruct (n =? name)%string eqn:Hn.
  - apply String.eqb_eq in Hn. now subst.
  - exact IH.
Qed.

Lemma custom_field_text metadata name entries :
  nullish metadata = false ->
  prop metadata "custom_fields" = JArr (fields_of entries) ->
  custom_field metadata name =
  ret (match first_text name entries with
       | Some s => JStr s
       | None => JUndefined
       end).
Proof.
  intros Hmeta Hfields. unfold custom_field.
  rewrite (prop_get _ "custom_fields"%string Hmeta), bind_ret_l, Hfields.
  rewrite find_variable_fields, bind_ret_l.
  now destruct (first_text name entries).
Qed.

Lemma extract_text metadata name d entries :
  nullish metadata = false ->
  prop metadata "custom_fields" = JArr (fields_of entries) ->
  extract metadata name d = ret (JStr (field_text name d entries)).
Proof.
  intros Hmeta Hfields. unfold extract, field_text.
  rewrite (custom_field_text _ _ _ Hmeta Hfields), bind_ret_l.
  destruct (first_text name entries) as [s|]; [|reflexivity].
  unfold or_default. cbn [truthy]. now destruct (s =? "")%string.
Qed.

Lemma shipping_zone_text metadata entries :
  nullish metadata = false ->
  prop metadata "custom_fields" = JArr (fields_of entries) ->
  shipping_zone metadata = ret (JStr (zone_text entries)).
Proof.
  intros Hmeta Hfields.
  pose proof (extract_text metadata "state" "N/A" entries Hmeta Hfields) as Hstate.
  unfold extract in Hstate. unfold shipping_zone, zone_text.
  rewrite (custom_field_text _ _ _ Hmeta Hfields), bind_ret_l.
  destruct (first_text "shipping_zone" entries) as [s|]; cbn [truthy].
  - destruct (s =? "")%string; cbn [negb]; [exact Hstate|reflexivity].
  - exact Hstate.
Qed.

Lemma variant_id_text metadata entries :
  nullish metadata = false ->
  prop metadata "custom_fields" = JArr (fields_of entries) ->
  variant_id metadata =
  ret (match first_text "variant_id" entries with
       | Some s => JStr s
       | None => JNull
       end).
Proof.
  intros Hmeta Hfields. unfold variant_id.
  rewrite (prop_get _ "custom_fields"%string Hmeta), bind_ret_l, Hfields.
  rewrite find_variable_fields, bind_ret_l.
  now destruct (first_text "variant_id" entries).
Qed.

(** X9. On a metadata object with named text fields, the shipping zone of
    the dual-email handler is the text of the first [shipping_zone]
    field; when there is none or it is empty, the text of the first
    [state] field; and "N/A" when that is missing or empty too. *)
Theorem shipping_zone_falls_back_on_state metadata entries :
  nullish metadata = false ->
  prop metadata "custom_fields" = JArr (fields_of entries) ->
  exists zone,
    shipping_zone metadata = ret (JStr zone) /\
    (forall z, first_text "shipping_zone" entries = Some z -> z <> ""%string ->
               zone = z) /\
    (first_text "shipping_zone" entries = None \/
     first_text "shipping_zone" entries = Some ""%string ->
     (forall state, first_text "state" entries = Some state -> state <> ""%string ->
                    zone = state) /\
     (first_text "state" entries = None \/
      first_text "state" entries = Some ""%string ->
      zone = "N/A"%string)).
Proof.
  intros Hmeta Hfields. exists (zone_text entries).
  split; [now apply shipping_zone_text|]. split.
  - intros z Hz Hne. unfold zone_text. rewrite Hz.
    apply String.eqb_neq in Hne. now rewrite Hne.
  - intros Hz. split.
    + intros state Hs Hne. unfold zone_text, field_text.
      apply String.eqb_neq in Hne.
      destruct Hz as [-> | ->]; cbn; now rewrite Hs, Hne.
    + intros Hs. unfold zone_text, field_text.
      destruct Hz as [-> | ->]; destruct Hs as [-> | ->]; reflexivity.
Qed.

Section HappyPaths.

Variable P : platform.

Lemma payment_facts req reference amount email paid_at entries :
  payment req reference amount email paid_at entries ->
  get (body req) "event" = ret (JStr "charge.success") /\
  get (body req) "data" = ret (event_data req) /\
  destructurable (event_data req) = ret tt /\
  hole (prop (event_data req) "reference") = ret reference /\
  to_primitive (prop (event_data req) "amount") = ret tt /\
  to_primitive (prop (event_data req) "paid_at") = ret tt /\
  nullish (prop (event_data req) "customer") = false /\
  get (prop (event_data req) "customer") "email" = ret (JStr email) /\
  nullish (prop (event_data req) "metadata") = false.
Proof.
  intros [Hev Href Hamount Hemail Hpaid Hfields].
  unfold claimed_amount, event_metadata in *.
  assert (Hdata : nullish (event_data req) = false).
  { apply prop_not_undefined with (k := "reference"%string). now rewrite Href. }
  assert (Hcust : nullish (prop (event_data req) "customer") = false).
  { apply prop_not_undefined with (k := "email"%string). now rewrite Hemail. }
  assert (Hmeta : nullish (prop (event_data req) "metadata") = false).
  { apply prop_not_undefined with (k := "custom_fields"%string). now rewrite Hfields. }
  destruct (charge_success_gets req (conj Hev Hdata)) as (H1 & H2 & H3).
  repeat split; auto.
  - now rewrite Href.
  - now rewrite Hamount.
  - now rewrite Hpaid.
  - now rewrite (prop_get _ _ Hcust), Hemail.
Qed.

Lemma confirms_passes w amount :
  confirms w amount ->
  exists o verifyData,
    paystack_verify w = Responded o (Json verifyData) /\
    not_verified verifyData = ret false /\
    amount_differs verifyData amount = ret false.
Proof.
  intros (vd & [o Hreply] & Hstatus & Hsuccess & Hamount).
  assert (Hd : nullish (prop vd "data") = false).
  { apply prop_not_undefined with (k := "status"%string). now rewrite Hsuccess. }
  assert (Hvd : nullish vd = false).
  { apply prop_not_undefined with (k := "data"%string).
    intros H. rewrite H in Hd. discriminate. }
  exists o, vd. split; [exact Hreply|]. split.
  - rewrite (not_verified_value vd Hvd Hd), Hstatus, Hsuccess. reflexivity.
  - rewrite (amount_differs_value vd amount Hvd Hd), Hamount. reflexivity.
Qed.

(** The first statement computes to a value, is settled by a hypothesis,
    or is run by cases. *)
Ltac step_eval :=
  first [ step_known | apply (rule_ret _ _ _ _ _ eq_refl) | step_cases ];
  cbv beta zeta.

Ltac run_eval :=
  unfold try_block, try_bare, try_verified, try_order, try_dual;
  unfold date_hole, long_date_hole, prop_hole;
  cbv beta zeta; cbn [template];
  repeat step_eval;
  match goal with
  | Q := _ |- _ => subst Q; cbv beta
  end;
  cbn [fst snd app].

Ltac use_payment Hpay :=
  let Hfacts := fresh in
  pose proof (payment_facts _ _ _ _ _ _ Hpay) as Hfacts;
  destruct Hfacts as (Hev & Hdata & Hdes & Hurl & Hnum & Hdate & Hcust & Hmail & Hmeta);
  destruct Hpay as [_ Href Hamount Hemail Hpaid Hfields];
  pose proof (fun name d => extract_text _ name d _ Hmeta Hfields) as Hextract;
  pose proof (Hextract "product_title" "Unknown Product")%string as Htitle;
  pose proof (Hextract "variant_id" "N/A")%string as Hvariant;
  pose proof (Hextract "customer_name" "N/A")%string as Hname;
  pose proof (Hextract "phone" "N/A")%string as Hphone;
  pose proof (Hextract "shipping_zone" "N/A")%string as Hzone;
  pose proof (Hextract "address" "N/A")%string as Haddress;
  pose proof (Hextract "shipping_fee" "0")%string as Hfee;
  clear Hextract;
  unfold claimed_amount, event_metadata, event_data in *.

(** X10. The verified notify handler on a typed payment record: for an
    authentic POST whose charge the processor confirms with the claimed
    amount, and an email API that accepts the message, the handler
    verifies with the reference, sends one email carrying the payment,
    customer, shipping and product facts in the template's order (each
    missing or empty field as its default), and answers 200 with the
    reference. *)
Theorem verified_notify_sends_summary w req reference amount email paid_at entries p :
  method req = "POST"%string ->
  authentic P w req ->
  payment req reference amount email paid_at entries ->
  confirms w (claimed_amount req) ->
  resend_emails w = Responded true p ->
  handler P VerifiedNotify w req =
    (Response 200
       (JObj [ ("success", JBool true); ("reference", JStr reference);
               ("verified", JBool true);
               ("message", JStr "Payment verified and email notification sent") ]%string),
     [ PaystackVerify reference;
       ResendEmail [reference]
         [ reference;
           kobo_toLocaleString P (JNum amount);
           date_toLocaleString P (JStr paid_at);
           field_text "customer_name" "N/A" entries;
           email;
           field_text "phone" "N/A" entries;
           field_text "shipping_zone" "N/A" entries;
           fee_toLocaleString P (field_text "shipping_fee" "0" entries);
           field_text "address" "N/A" entries;
           field_text "product_title" "Unknown Product" entries;
           field_text "variant_id" "N/A" entries;
           reference ] ]).
Proof.
  intros Hpost Hauth Hpay Hconfirm Hmailed.
  destruct (authentic_hash P w req Hauth) as (hash & Hhash & Hsame).
  destruct (confirms_passes _ _ Hconfirm) as (o & vd & Hreply & Hnv & Had).
  use_payment Hpay.
  enter Hpost. run_eval. now rewrite Href, Hamount, Hpaid.
Qed.

(** X11. The bare handler on a typed payment record sends its email and
    answers 200 for any POST [charge.success] event, whatever the
    signature header and the secret are: the signature is not looked at
    and the processor is not asked. *)
Theorem bare_notify_sends_unchecked w req reference amount email paid_at entries code p :
  method req = "POST"%string ->
  payment req reference amount email paid_at entries ->
  ToString (prop (prop (event_data req) "customer") "customer_code") = Some code ->
  resend_emails w = Responded true p ->
  handler P BareNotify w req =
    (Response 200
       (JObj [ ("success", JBool true); ("reference", JStr reference);
               ("message", JStr "Email notification sent") ]%string),
     [ ResendEmail [reference]
         [ reference;
           kobo_toLocaleString P (JNum amount);
           date_toLocaleString P (JStr paid_at);
           email; code;
           field_text "product_title" "Unknown Product" entries;
           field_text "variant_id" "N/A" entries ] ]).
Proof.
  intros Hpost Hpay Hcode Hmailed.
  apply hole_some in Hcode.
  use_payment Hpay.
  pose proof (prop_get _ "customer_code"%string Hcust) as Hgetcode.
  enter Hpost. run_eval. now rewrite Href, Hamount, Hpaid.
Qed.

(** X12. The order-create handler on a typed payment record whose first
    [variant_id] field is a non-empty text: for an authentic POST whose
    charge the processor reports as successful, and a commerce backend
    that creates the draft order, the handler verifies, creates the draft
    order for the customer's email, the reference and that variant, and
    completes the draft order by its id.  The reply to the complete call
    is not read: the answer is 200 whatever it holds, and 500 only when
    the call itself is rejected, the draft order having been created. *)
Theorem order_create_places_order
    w req reference amount email paid_at entries variant id :
  method req = "POST"%string ->
  authentic P w req ->
  payment req reference amount email paid_at entries ->
  reports_success w ->
  first_text "variant_id" entries = Some variant ->
  variant <> ""%string ->
  draft_order_created w id ->
  let calls :=
    [ PaystackVerify reference;
      DraftOrderCreate [email; reference; variant; reference];
      DraftOrderComplete [id] ] in
  (forall o p,
     shopify_draftOrderComplete w = Responded o p ->
     handler P OrderCreate w req =
       (Response 200
          (JObj [ ("success", JBool true); ("reference", JStr reference);
                  ("message", JStr "Order created successfully") ]%string),
        calls)) /\
  (forall e,
     shopify_draftOrderComplete w = Rejected e ->
     handler P OrderCreate w req =
       (Response 500 (JObj [("error"%string, JStr (message e))]), calls)).
Proof.
  intros Hpost Hauth Hpay (vd & [o1 Hreply] & Hsuccess) Hfirst Hne
         (o2 & sd & Hcreate & Herrors & Hid) calls.
  destruct (authentic_hash P w req Hauth) as (hash & Hhash & Hsame).
  use_payment Hpay.
  assert (Hvdata : nullish (prop vd "data") = false).
  { apply prop_not_undefined with (k := "status"%string). now rewrite Hsuccess. }
  assert (Hvd : nullish vd = false).
  { apply prop_not_undefined with (k := "data"%string).
    intros H. rewrite H in Hvdata. discriminate. }
  pose proof (prop_get _ "data"%string Hvd) as Hg1.
  pose proof (prop_get _ "status"%string Hvdata) as Hg2. rewrite Hsuccess in Hg2.
  pose proof (variant_id_text _ _ Hmeta Hfields) as Hvid. rewrite Hfirst in Hvid.
  assert (Hgiven : negb (truthy (JStr variant)) = false).
  { cbn [truthy]. apply String.eqb_neq in Hne. now rewrite Hne. }
  assert (Hn4 : nullish (prop (prop (prop sd "data") "draftOrderCreate") "draftOrder")
                = false).
  { apply prop_not_undefined with (k := "id"%string). now rewrite Hid. }
  assert (Hn3 : nullish (prop (prop sd "data") "draftOrderCreate") = false).
  { apply prop_not_undefined with (k := "draftOrder"%string).
    intros H. rewrite H in Hn4. discriminate. }
  assert (Hn2 : nullish (prop sd "data") = false).
  { apply prop_not_undefined with (k := "draftOrderCreate"%string).
    intros H. rewrite H in Hn3. discriminate. }
  assert (Hn1 : nullish sd = false).
  { apply prop_not_undefined with (k := "data"%string).
    intros H. rewrite H in Hn2. discriminate. }
  pose proof (prop_get _ "errors"%string Hn1) as Hs1.
  pose proof (prop_get _ "data"%string Hn1) as Hs2.
  pose proof (prop_get _ "draftOrderCreate"%string Hn2) as Hs3.
  pose proof (prop_get _ "draftOrder"%string Hn3) as Hs4.
  pose proof (prop_get _ "id"%string Hn4) as Hs5. rewrite Hid in Hs5.
  subst calls. split.
  - intros o p Hcomplete. enter Hpost. run_eval. now rewrite Href.
  - intros e Hcomplete. enter Hpost. run_eval. reflexivity.
Qed.

(** X13. The dual-email handler on a typed payment record: for an
    authentic POST whose charge the processor confirms with the claimed
    amount, the handler verifies, sends the admin notification to the
    fixed operator address and the order summary to the customer's email,
    each with its facts in the template's order, and answers 200,
    whatever the mail server answers to either send. *)
Theorem dual_email_sends_both w req reference amount email paid_at entries :
  method req = "POST"%string ->
  authentic P w req ->
  payment req reference amount email paid_at entries ->
  confirms w (claimed_amount req) ->
  let name := field_text "customer_name" "N/A" entries in
  let phone := field_text "phone" "N/A" entries in
  let zone := zone_text entries in
  let address := field_text "address" "N/A" entries in
  let title := field_text "product_title" "Unknown Product" entries in
  let fee := field_text "shipping_fee" "0" entries in
  let total := kobo_toLocaleString P (JNum amount) in
  let price := price_toLocaleString P (JNum amount) fee in
  handler P DualEmail w req =
    (Response 200
       (JObj [ ("success", JBool true); ("reference", JStr reference);
               ("verified", JBool true);
               ("message", JStr "Payment verified, admin notification and customer order summary sent") ]%string),
     [ PaystackVerify reference;
       SendMail [JStr "support@jegolden.com"] [reference]
         [ reference; total; date_toLocaleString P (JStr paid_at); name; email;
           phone; zone; fee_toLocaleString P fee; address; title;
           field_text "variant_id" "N/A" entries; reference ];
       SendMail [JStr email] [reference]
         [ name; reference; date_toLocaleDateString P (JStr paid_at); title;
           price; price; zone; fee_toLocaleString P fee; total; name; address;
           zone; phone; getFullYear P ] ]).
Proof.
  intros Hpost Hauth Hpay Hconfirm.
  destruct (authentic_hash P w req Hauth) as (hash & Hhash & Hsame).
  destruct (confirms_passes _ _ Hconfirm) as (o & vd & Hreply & Hnv & Had).
  use_payment Hpay.
  pose proof (shipping_zone_text _ _ Hmeta Hfields) as Hzone2.
  cbv zeta. enter Hpost. run_eval.
  now rewrite Hemail, Href, Hamount, Hpaid.
Qed.

End HappyPaths.

(** ** What a success answer means *)

Section Success.

Variable P : platform.

(** X14. A success answer is given only after the downstream action went
    through: by the bare and verified notify handlers only when the email
    API was called and answered 2xx; by the order-create handler only
    when the draft order was created and the complete call, made last,
    was not rejected. *)
Theorem success_means_done w req :
  (forall v,
     v = BareNotify \/ v = VerifiedNotify ->
     is_success (fst (handler P v w req)) = true ->
     (exists p, resend_emails w = Responded true p) /\
     existsb is_email_call (snd (handler P v w req)) = true) /\
  (is_success (fst (handler P OrderCreate w req)) = true ->
   draft_create_failed (shopify_draftOrderCreate w) = false /\
   (exists o p, shopify_draftOrderComplete w = Responded o p) /\
   exists url q1 q2,
     snd (handler P OrderCreate w req) =
       [PaystackVerify url; DraftOrderCreate q1; DraftOrderComplete q2]).
Proof.
  split.
  - intros v Hv. rewrite handler_unfold.
    destruct (negb (method req =? "POST")%string).
    { discriminate. }
    rewrite try_catch_run. focus_run. destruct Hv as [-> | ->]; run_block.
    all: intros Hs; cbn in Hs; try discriminate Hs.
    all: match goal with
         | Hr : resend_emails _ = Responded ?o _, Ho : negb (ok _) = false |- _ =>
             cbn [ok] in Ho; apply negb_false_iff in Ho; subst o;
             split; [eexists; exact Hr|reflexivity]
         end.
  - rewrite handler_unfold. destruct (negb (method req =? "POST")%string).
    { discriminate. }
    rewrite try_catch_run. focus_run. run_block.
    all: intros Hs; cbn in Hs; try discriminate Hs.
    all: match goal with
         | H : shopify_draftOrderCreate _ = Responded _ _ |- _ => rewrite H
         end.
    all: cbn [draft_create_failed];
         repeat match goal with
                | H : nullish _ = false |- _ => rewrite H
                | H : truthy _ = false |- _ => rewrite H
                end; cbn [orb].
    all: split; [reflexivity|]; split; [eauto|]; eexists _, _, _; reflexivity.
Qed.

End Success.

(** ** The further properties at the sample requests *)

Lemma order_create_checks : OrderCreate <> BareNotify.
Proof. discriminate. Qed.

Lemma dual_email_checks : DualEmail <> BareNotify.
Proof. discriminate. Qed.

Lemma shop_request_authentic w :
  PAYSTACK_SECRET_KEY w = Some "sk_live"%string ->
  authentic sample_platform w (shop_request sample_platform).
Proof. intros Hk. eapply signed_authentic; [exact Hk|reflexivity]. Qed.

Lemma shop_request_charge : charge_success (shop_request sample_platform).
Proof. split; reflexivity. Qed.

Lemma shop_request_payment :
  payment (shop_request sample_platform) "ref_1" 500000 "buyer@example.com"
          "2025-01-01T00:00:00.000Z" shop_entries.
Proof. constructor; reflexivity. Qed.

Lemma sample_world_confirms :
  confirms (world_reporting "success" 500000)
           (claimed_amount (shop_request sample_platform)).
Proof.
  eexists. split; [eexists; reflexivity|]. repeat split; reflexivity.
Qed.

Lemma mail_refused_world_confirms :
  confirms mail_refused_world (claimed_amount (shop_request sample_platform)).
Proof.
  eexists. split; [eexists; reflexivity|]. repeat split; reflexivity.
Qed.

Lemma half_done_world_reports : reports_success half_done_world.
Proof. eexists. split; [eexists; reflexivity|]. reflexivity. Qed.

Lemma half_done_world_created :
  draft_order_created half_done_world "gid://shopify/DraftOrder/1".
Proof. eexists _, _. split; [reflexivity|]. split; reflexivity. Qed.

Lemma variant_987_given : "987"%string <> ""%string.
Proof. discriminate. Qed.

Lemma mail_only_after_confirmation_witness :
  existsb is_email_call
    (snd (handler sample_platform VerifiedNotify (world_reporting "success" 500000)
            (shop_request sample_platform))) = true /\
  method (shop_request sample_platform) = "POST"%string /\
  authentic sample_platform (world_reporting "success" 500000)
            (shop_request sample_platform) /\
  prop (body (shop_request sample_platform)) "event" = JStr "charge.success" /\
  confirms (world_reporting "success" 500000)
           (claimed_amount (shop_request sample_platform)).
Proof.
  refine (conj eq_refl _).
  exact (mail_only_after_confirmation sample_platform VerifiedNotify
           (world_reporting "success" 500000) (shop_request sample_platform)
           (or_introl eq_refl) eq_refl).
Defined.

Lemma order_only_after_checks_witness :
  existsb is_order_call
    (snd (handler sample_platform OrderCreate (world_reporting "success" 500000)
            (shop_request sample_platform))) = true /\
  authentic sample_platform (world_reporting "success" 500000)
            (shop_request sample_platform) /\
  reports_success (world_reporting "success" 500000).
Proof.
  refine (conj eq_refl _).
  pose proof (order_only_after_checks sample_platform
                (world_reporting "success" 500000) (shop_request sample_platform)
                eq_refl) as (_ & Hauth & _ & Hreports & _).
  exact (conj Hauth Hreports).
Defined.

Lemma invalid_signature_iff_forged_witness :
  OrderCreate <> BareNotify /\
  method forged_request = "POST"%string /\
  forged sample_platform (world_reporting "success" 500000) forged_request /\
  fst (handler sample_platform OrderCreate (world_reporting "success" 500000)
         forged_request) = Response 400 invalid_signature.
Proof.
  refine (conj order_create_checks (conj eq_refl (conj forged_request_is_forged _))).
  exact (proj2 (invalid_signature_iff_forged sample_platform OrderCreate
                  (world_reporting "success" 500000) forged_request
                  order_create_checks)
               (conj eq_refl forged_request_is_forged)).
Defined.

Lemma missing_secret_fails_closed_witness :
  DualEmail <> BareNotify /\
  method (shop_request sample_platform) = "POST"%string /\
  PAYSTACK_SECRET_KEY keyless_world = None /\
  status (fst (handler sample_platform DualEmail keyless_world
                 (shop_request sample_platform))) = 500 /\
  snd (handler sample_platform DualEmail keyless_world
         (shop_request sample_platform)) = [].
Proof.
  refine (conj dual_email_checks (conj eq_refl (conj eq_refl _))).
  exact (missing_secret_fails_closed sample_platform DualEmail keyless_world
           (shop_request sample_platform) dual_email_checks eq_refl eq_refl).
Defined.

Lemma verification_failure_is_500_witness :
  paystack_verify offline_world = Rejected (TypeError "fetch failed") /\
  handler sample_platform OrderCreate offline_world (shop_request sample_platform) =
    (Response 500 (JObj [("error", JStr "fetch failed")]%string),
     [PaystackVerify "ref_1"]) /\
  handler sample_platform DualEmail garbled_world (shop_request sample_platform) =
    (Response 500 (JObj [("error", JStr "Unexpected token < in JSON")]%string),
     [PaystackVerify "ref_1"]).
Proof.
  refine (conj eq_refl (conj _ _)).
  - exact (verification_failure_is_500 sample_platform OrderCreate offline_world
             (shop_request sample_platform) "ref_1" (TypeError "fetch failed")
             order_create_checks eq_refl
             (shop_request_authentic offline_world eq_refl)
             shop_request_charge eq_refl (or_introl eq_refl)).
  - exact (verification_failure_is_500 sample_platform DualEmail garbled_world
             (shop_request sample_platform) "ref_1"
             (SyntaxError "Unexpected token < in JSON")
             dual_email_checks eq_refl
             (shop_request_authentic garbled_world eq_refl)
             shop_request_charge eq_refl
             (or_intror (ex_intro _ false eq_refl))).
Defined.

Lemma unconfirmed_charge_answers_witness :
  processor_reports mismatch_world
    (JObj [ ("status", JBool true);
            ("data", JObj [("status", JStr "success"); ("amount", JNum 400000)]) ]%string) /\
  handler sample_platform VerifiedNotify mismatch_world (shop_request sample_platform) =
    (Response 400 (JObj [("error", JStr "Amount mismatch")]%string),
     [PaystackVerify "ref_1"]) /\
  handler sample_platform DualEmail abandoned_world (shop_request sample_platform) =
    (Response 400 (JObj [("error", JStr "Payment not verified")]%string),
     [PaystackVerify "ref_1"]).
Proof.
  refine (conj (ex_intro _ true eq_refl) (conj _ _)).
  - exact (proj2 (unconfirmed_charge_answers sample_platform VerifiedNotify
                    mismatch_world (shop_request sample_platform) "ref_1" _
                    (or_introl eq_refl) eq_refl
                    (shop_request_authentic mismatch_world eq_refl)
                    shop_request_charge eq_refl (ex_intro _ true eq_refl)
                    eq_refl eq_refl)
                 eq_refl eq_refl eq_refl).
  - refine (proj1 (unconfirmed_charge_answers sample_platform DualEmail
                     abandoned_world (shop_request sample_platform) "ref_1" _
                     (or_intror eq_refl) eq_refl
                     (shop_request_authentic abandoned_world eq_refl)
                     shop_request_charge eq_refl (ex_intro _ true eq_refl)
                     eq_refl eq_refl)
                  (or_intror _)).
    discriminate.
Defined.

Lemma graphql_errors_are_500_witness :
  truthy (JArr [JObj [("message", JStr "Throttled")]]%string) = true /\
  In (DraftOrderCreate ["buyer@example.com"; "ref_1"; "987"; "ref_1"]%string)
     (snd (handler sample_platform OrderCreate refusing_world
             (shop_request sample_platform))) /\
  exists url text,
    JSON_stringify (JArr [JObj [("message", JStr "Throttled")]]%string) = Some text /\
    handler sample_platform OrderCreate refusing_world (shop_request sample_platform) =
      (Response 500 (JObj [("error", JStr ("Shopify API error: " ++ text))]%string),
       [ PaystackVerify url;
         DraftOrderCreate ["buyer@example.com"; "ref_1"; "987"; "ref_1"]%string ]).
Proof.
  refine (conj eq_refl (conj (or_intror (or_introl eq_refl)) _)).
  exact (graphql_errors_are_500 sample_platform refusing_world
           (shop_request sample_platform) true
           (JObj [("errors", JArr [JObj [("message", JStr "Throttled")]])]%string)
           _ eq_refl eq_refl (or_intror (or_introl eq_refl))).
Defined.

Lemma shipping_zone_falls_back_on_state_witness :
  nullish (metadata_of (fields_of shop_entries)) = false /\
  first_text "shipping_zone" shop_entries = None /\
  first_text "state" shop_entries = Some "Lagos"%string /\
  shipping_zone (metadata_of (fields_of shop_entries)) = ret (JStr "Lagos").
Proof.
  refine (conj eq_refl (conj eq_refl (conj eq_refl _))).
  destruct (shipping_zone_falls_back_on_state
              (metadata_of (fields_of shop_entries)) shop_entries eq_refl eq_refl)
    as (zone & Hzone & _ & Hstate).
  rewrite Hzone.
  rewrite (proj1 (Hstate (or_introl eq_refl)) "Lagos"%string eq_refl
             ltac:(discriminate)).
  reflexivity.
Defined.

Lemma verified_notify_sends_summary_witness :
  payment (shop_request sample_platform) "ref_1" 500000 "buyer@example.com"
          "2025-01-01T00:00:00.000Z" shop_entries /\
  confirms (world_reporting "success" 500000)
           (claimed_amount (shop_request sample_platform)) /\
  handler sample_platform VerifiedNotify (world_reporting "success" 500000)
          (shop_request sample_platform) =
    (Response 200
       (JObj [ ("success", JBool true); ("reference", JStr "ref_1");
               ("verified", JBool true);
               ("message", JStr "Payment verified and email notification sent") ]%string),
     [ PaystackVerify "ref_1";
       ResendEmail ["ref_1"%string]
         [ "ref_1"; "NGN 5,000.00"; "1/1/2025, 12:00:00 AM"; "Ada";
           "buyer@example.com"; "N/A"; "N/A"; "NGN 0.00"; "1 Marina Road";
           "Aviator"; "987"; "ref_1" ]%string ]).
Proof.
  refine (conj shop_request_payment (conj sample_world_confirms _)).
  exact (verified_notify_sends_summary sample_platform
           (world_reporting "success" 500000) (shop_request sample_platform)
           _ _ _ _ _ _ eq_refl
           (shop_request_authentic (world_reporting "success" 500000) eq_refl)
           shop_request_payment sample_world_confirms eq_refl).
Defined.

Lemma bare_notify_sends_unchecked_witness :
  payment forged_shop_request "ref_1" 500000 "buyer@example.com"
          "2025-01-01T00:00:00.000Z" shop_entries /\
  x_paystack_signature forged_shop_request = Some "00ff"%string /\
  handler sample_platform BareNotify keyless_world forged_shop_request =
    (Response 200
       (JObj [ ("success", JBool true); ("reference", JStr "ref_1");
               ("message", JStr "Email notification sent") ]%string),
     [ ResendEmail ["ref_1"%string]
         [ "ref_1"; "NGN 5,000.00"; "1/1/2025, 12:00:00 AM";
           "buyer@example.com"; "CUS_1"; "Aviator"; "987" ]%string ]).
Proof.
  assert (Hpay : payment forged_shop_request "ref_1" 500000 "buyer@example.com"
                         "2025-01-01T00:00:00.000Z" shop_entries)
    by (constructor; reflexivity).
  refine (conj Hpay (conj eq_refl _)).
  exact (bare_notify_sends_unchecked sample_platform keyless_world
           forged_shop_request _ _ _ _ _ "CUS_1" _ eq_refl Hpay eq_refl eq_refl).
Defined.

Lemma order_create_places_order_witness :
  first_text "variant_id" shop_entries = Some "987"%string /\
  draft_order_created half_done_world "gid://shopify/DraftOrder/1" /\
  shopify_draftOrderComplete half_done_world = Rejected (TypeError "fetch failed") /\
  handler sample_platform OrderCreate half_done_world (shop_request sample_platform) =
    (Response 500 (JObj [("error", JStr "fetch failed")]%string),
     [ PaystackVerify "ref_1";
       DraftOrderCreate ["buyer@example.com"; "ref_1"; "987"; "ref_1"]%string;
       DraftOrderComplete ["gid://shopify/DraftOrder/1"%string] ]).
Proof.
  refine (conj eq_refl (conj half_done_world_created (conj eq_refl _))).
  exact (proj2 (order_create_places_order sample_platform half_done_world
                  (shop_request sample_platform) _ _ _ _ _ "987"
                  "gid://shopify/DraftOrder/1" eq_refl
                  (shop_request_authentic half_done_world eq_refl) shop_request_payment
                  half_done_world_reports eq_refl variant_987_given
                  half_done_world_created)
               (TypeError "fetch failed") eq_refl).
Defined.

Lemma dual_email_sends_both_witness :
  smtp_admin mail_refused_world = Some (Error "Invalid login: 535") /\
  smtp_customer mail_refused_world = Some (Error "Invalid login: 535") /\
  confirms mail_refused_world (claimed_amount (shop_request sample_platform)) /\
  handler sample_platform DualEmail mail_refused_world (shop_request sample_platform) =
    (Response 200
       (JObj [ ("success", JBool true); ("reference", JStr "ref_1");
               ("verified", JBool true);
               ("message", JStr "Payment verified, admin notification and customer order summary sent") ]%string),
     [ PaystackVerify "ref_1";
       SendMail [JStr "support@jegolden.com"] ["ref_1"%string]
         [ "ref_1"; "NGN 5,000.00"; "1/1/2025, 12:00:00 AM"; "Ada";
           "buyer@example.com"; "N/A"; "Lagos"; "NGN 0.00"; "1 Marina Road";
           "Aviator"; "987"; "ref_1" ]%string;
       SendMail [JStr "buyer@example.com"] ["ref_1"%string]
         [ "Ada"; "ref_1"; "1 January 2025"; "Aviator"; "NGN 5,000.00";
           "NGN 5,000.00"; "Lagos"; "NGN 0.00"; "NGN 5,000.00"; "Ada";
           "1 Marina Road"; "Lagos"; "N/A"; "2025" ]%string ]).
Proof.
  refine (conj eq_refl (conj eq_refl (conj mail_refused_world_confirms _))).
  exact (dual_email_sends_both sample_platform mail_refused_world
           (shop_request sample_platform) _ _ _ _ _ eq_refl
           (shop_request_authentic mail_refused_world eq_refl) shop_request_payment
           mail_refused_world_confirms).
Defined.

Lemma success_means_done_witness :
  is_success
    (fst (handler sample_platform VerifiedNotify (world_reporting "success" 500000)
            (shop_request sample_platform))) = true /\
  (exists p, resend_emails (world_reporting "success" 500000) = Responded true p) /\
  existsb is_email_call
    (snd (handler sample_platform VerifiedNotify (world_reporting "success" 500000)
            (shop_request sample_platform))) = true.
Proof.
  refine (conj eq_refl _).
  exact (proj1 (success_means_done sample_platform
                  (world_reporting "success" 500000) (shop_request sample_platform))
               VerifiedNotify (or_intror eq_refl) eq_refl).
Defined.
